(** * Deploy-command inference (super.py): a shallow embedding and its properties

    The program scans a directory for [deploy_server_*.sh] scripts, reads the
    working directory and the commands of each script, classifies the project
    the script points at from its [package.json], and renders the result as a
    report, a JSON array or a shell script.

    Conventions of the embedding.
    - Text is [string]: the UTF-8 bytes of the Python [str].  The whitespace
      test is Python's on the ASCII range, so the model agrees with the
      program on every text whose whitespace characters are ASCII.
    - A Python value that may be [None] is an [option]; a dictionary with a
      fixed set of keys is a record.
    - The interpreter's libraries the program calls (pathlib, the file system,
      the json module) are the fields of [Env]; a call that raises is [None].
    - A procedure that prints or writes is a computation in [M]: the effects
      it performed, and its return value unless an exception escaped. *)

From Stdlib Require Import Bool Arith List Lia Ascii String.
From Stdlib Require Import Sorting.Permutation Numbers.DecimalString.
From Stdlib Require Import Sorting.Sorted Structures.OrderedTypeEx.
Import ListNotations.
Open Scope list_scope.
Open Scope string_scope.

(** ** Python string operations *)

Module PyStr.

(** [str.isspace] on one character of the ASCII range: TAB LF VT FF CR,
    FS GS RS US, and SPACE. *)
Definition is_space (c : ascii) : bool :=
  let n := nat_of_ascii c in
  (Nat.leb 9 n && Nat.leb n 13) || (Nat.leb 28 n && Nat.leb n 32).

Definition newline : ascii := "010"%char.

Definition is_newline (c : ascii) : bool := Ascii.eqb c newline.

(** Truth value of a [str]: non-empty. *)
Definition truthy (s : string) : bool :=
  match s with EmptyString => false | String _ _ => true end.

(** Truth value of a value that is [None] or a [str]. *)
Definition truthy_opt (o : option string) : bool :=
  match o with None => false | Some s => truthy s end.

Fixpoint lstrip (s : string) : string :=
  match s with
  | EmptyString => EmptyString
  | String c s' => if is_space c then lstrip s' else s
  end.

Fixpoint rstrip (s : string) : string :=
  match s with
  | EmptyString => EmptyString
  | String c s' =>
      match rstrip s' with
      | EmptyString => if is_space c then EmptyString else String c EmptyString
      | r => String c r
      end
  end.

(** [s.strip()] *)
Definition strip (s : string) : string := rstrip (lstrip s).

(** [s.startswith(p)] *)
Definition startswith (p s : string) : bool := String.prefix p s.

(** [s.split('\n')]: never empty, the pieces hold no newline. *)
Fixpoint split_nl (s : string) : list string :=
  match s with
  | EmptyString => [EmptyString]
  | String c s' =>
      if is_newline c then EmptyString :: split_nl s'
      else match split_nl s' with
           | [] => [String c EmptyString]
           | l :: ls => String c l :: ls
           end
  end.

(** ["\n".join(ls)] *)
Fixpoint join_nl (ls : list string) : string :=
  match ls with
  | [] => EmptyString
  | [l] => l
  | l :: ls' => l ++ String newline (join_nl ls')
  end.

(** [sub in s] for two strings. *)
Fixpoint contains (sub s : string) : bool :=
  String.prefix sub s ||
  match s with
  | EmptyString => false
  | String _ s' => contains sub s'
  end.

Definition lower_char (c : ascii) : ascii :=
  let n := nat_of_ascii c in
  if Nat.leb 65 n && Nat.leb n 90 then ascii_of_nat (n + 32) else c.

(** [s.lower()] on the ASCII letters. *)
Fixpoint lower (s : string) : string :=
  match s with
  | EmptyString => EmptyString
  | String c s' => String (lower_char c) (lower s')
  end.

(** [c * n] for a one-character string [c]. *)
Fixpoint repeat_char (c : ascii) (n : nat) : string :=
  match n with
  | O => EmptyString
  | S n' => String c (repeat_char c n')
  end.

(** [str(n)] for a non-negative integer. *)
Definition of_nat (n : nat) : string := NilEmpty.string_of_uint (Nat.to_uint n).

End PyStr.

(** ** The change-directory pattern

    [re.search(r'cd\s+(.+?)(?:\s|$)', line)], written out piece by piece in
    the order the backtracking matcher tries the alternatives.  The result is
    [group(1)] of the leftmost match, [None] when nothing matches. *)

Module CdPattern.
Import PyStr.

(** [(?:\s|$)] at [t]: a whitespace character follows, or [t] is the end of
    the text ([$] also holds just before a final newline). *)
Definition terminator (t : string) : bool :=
  match t with
  | EmptyString => true
  | String c t' =>
      is_space c || (is_newline c && match t' with EmptyString => true | _ => false end)
  end.

(** [(.+?)(?:\s|$)] at [t]: the lazy group takes one character, then one more
    each time the terminator fails; [.] refuses a newline. *)
Fixpoint lazy_group (t : string) : option string :=
  match t with
  | EmptyString => None
  | String c t' =>
      if is_newline c then None
      else if terminator t' then Some (String c EmptyString)
      else option_map (String c) (lazy_group t')
  end.

(** [\s+(.+?)(?:\s|$)] at [t]: the greedy [\s+] first takes every whitespace
    character it can and gives them back one at a time. *)
Fixpoint spaces_group (t : string) : option string :=
  match t with
  | EmptyString => None
  | String c t' =>
      if is_space c then
        match spaces_group t' with
        | Some g => Some g
        | None => lazy_group t'
        end
      else None
  end.

(** The whole pattern anchored at the start of [s]. *)
Definition match_here (s : string) : option string :=
  match s with
  | String "c" (String "d" t) => spaces_group t
  | _ => None
  end.

(** [re.search]: the leftmost position where the pattern matches. *)
Fixpoint search (s : string) : option string :=
  match match_here s with
  | Some g => Some g
  | None =>
      match s with
      | EmptyString => None
      | String _ s' => search s'
      end
  end.

End CdPattern.

(** ** Values of the json module *)

(** What [json.load] returns: [None], a [bool], a number (kept as its
    literal), a [str], a [list], or a [dict] given by its items in insertion
    order. *)
#[local] Set Warnings "-register-all".
Inductive json : Type :=
| JNull
| JBool (b : bool)
| JNumber (literal : string)
| JString (s : string)
| JArray (items : list json)
| JObject (members : list (string * json)).

Module PyDict.

Definition dict := list (string * json).

(** [d[k]] when the key is there. *)
Fixpoint lookup (k : string) (d : dict) : option json :=
  match d with
  | [] => None
  | (k', v) :: d' => if String.eqb k k' then Some v else lookup k d'
  end.

(** [k in d] *)
Definition has_key (k : string) (d : dict) : bool :=
  match lookup k d with Some _ => true | None => false end.

(** [d[k] = v]: an existing key keeps its place, a new one goes last. *)
Fixpoint set (k : string) (v : json) (d : dict) : dict :=
  match d with
  | [] => [(k, v)]
  | (k', v') :: d' =>
      if String.eqb k k' then (k', v) :: d' else (k', v') :: set k v d'
  end.

(** [{**a, **b}] for two dictionaries. *)
Definition merge (a b : dict) : dict :=
  fold_left (fun acc kv => set (fst kv) (snd kv) acc) b a.

(** [pkg.get(k, {})]: only a [dict] has the method; anything else raises
    [AttributeError]. *)
Definition get (pkg : json) (k : string) : option json :=
  match pkg with
  | JObject d =>
      match lookup k d with
      | Some v => Some v
      | None => Some (JObject [])
      end
  | _ => None
  end.

(** The operand of [**] inside a dictionary display: only a mapping unpacks,
    anything else raises [TypeError]. *)
Definition unpack (v : json) : option dict :=
  match v with
  | JObject d => Some d
  | _ => None
  end.

Definition is_str (s : string) (v : json) : bool :=
  match v with
  | JString s' => String.eqb s s'
  | _ => false
  end.

(** ['build' in v] for a string key and any json value: key membership for a
    [dict], element membership for a [list], substring for a [str];
    [TypeError] for the rest. *)
Definition py_in (k : string) (v : json) : option bool :=
  match v with
  | JObject d => Some (has_key k d)
  | JArray l => Some (existsb (is_str k) l)
  | JString s => Some (PyStr.contains k s)
  | JNull | JBool _ | JNumber _ => None
  end.

End PyDict.

(** ** The environment: pathlib, the file system and the json reader

    A path is the text [str(path)] gives. *)

Definition path := string.

Record Env : Type := {
  (** [Path(s)] *)
  to_path : string -> path;
  (** [Path(target_dir).resolve()] *)
  resolve : string -> path;
  (** [p.exists()]; [None] when it raises: [Path.exists] answers [False]
      for a path that is not there and lets every other [OSError] through
      (a name that is too long, a directory that may not be searched) *)
  path_exists : path -> option bool;
  (** [p / name] *)
  joinpath : path -> string -> path;
  (** [Path(p).parent] *)
  parent : path -> path;
  (** [os.path.basename(p)], which is also [p.name] *)
  basename : path -> string;
  (** [list(p.glob(pattern))] *)
  glob : path -> string -> list path;
  (** [p < q] on two paths, the comparison [sorted] uses *)
  path_lt : path -> path -> bool;
  (** [open(p, 'r', encoding='utf-8').read()]; [None] when it raises *)
  read_text : path -> option string;
  (** [json.load] on the text of a file; [None] when it raises *)
  json_loads : string -> option json;
  (** whether [open(p, 'w', encoding='utf-8')] succeeds *)
  writable : path -> bool
}.

(** ** Records of the analysis *)

Record ProjectType : Type := {
  type : string;
  category : string;
  build_command : option string;
  description : string
}.

Record AnalysisResult : Type := {
  script : string;
  working_dir : option string;
  commands : list string;
  current_command : option string;
  project_type : option ProjectType;
  recommended_command : option string
}.

Record DeployEntry : Type := {
  dir : string;
  command : string;
  entry_type : string
}.

(** Assignments to the keys of a result. *)
Definition set_working_dir (r : AnalysisResult) (v : option string) :=
  {| script := script r; working_dir := v; commands := commands r;
     current_command := current_command r; project_type := project_type r;
     recommended_command := recommended_command r |}.

Definition set_commands (r : AnalysisResult) (v : list string) :=
  {| script := script r; working_dir := working_dir r; commands := v;
     current_command := current_command r; project_type := project_type r;
     recommended_command := recommended_command r |}.

Definition set_current_command (r : AnalysisResult) (v : option string) :=
  {| script := script r; working_dir := working_dir r; commands := commands r;
     current_command := v; project_type := project_type r;
     recommended_command := recommended_command r |}.

Definition set_project_type (r : AnalysisResult) (v : option ProjectType) :=
  {| script := script r; working_dir := working_dir r; commands := commands r;
     current_command := current_command r; project_type := v;
     recommended_command := recommended_command r |}.

Definition set_recommended_command (r : AnalysisResult) (v : option string) :=
  {| script := script r; working_dir := working_dir r; commands := commands r;
     current_command := current_command r; project_type := project_type r;
     recommended_command := v |}.

(** ** detect_project_type *)

Definition vite_type : ProjectType :=
  {| type := "vite"; category := "static";
     build_command := Some "npm run build";
     description := "Vite 静态网页项目" |}.

Definition cra_type : ProjectType :=
  {| type := "cra"; category := "static";
     build_command := Some "npm run build";
     description := "Create React App 项目" |}.

Definition vue_cli_type : ProjectType :=
  {| type := "vue-cli"; category := "static";
     build_command := Some "npm run build";
     description := "Vue CLI 项目" |}.

Definition frontend_type : ProjectType :=
  {| type := "frontend"; category := "static";
     build_command := Some "npm run build";
     description := "前端项目（通用）" |}.

Definition unknown_type : ProjectType :=
  {| type := "unknown"; category := "unknown";
     build_command := None;
     description := "未知项目类型" |}.

(** The option monad stands for "may raise" inside the [try] block. *)
Definition obind {A B : Type} (o : option A) (f : A -> option B) : option B :=
  match o with
  | Some a => f a
  | None => None
  end.

Notation "x <- o ;; k" := (obind o (fun x => k))
  (at level 61, o at next level, right associativity).

(** [a.exists() or b.exists()]: the second test is made only when the first
    answers [False]. *)
Definition exists_or (a b : option bool) : option bool :=
  x <- a ;;
  if x then Some true else b.

(** The body of the [try]: [None] when an exception is raised,
    [Some (Some t)] when a [return] is reached, [Some None] when the block
    runs to its end. *)
Definition detect_try (e : Env) (project_path : path) : option (option ProjectType) :=
  text <- read_text e (joinpath e project_path "package.json") ;;
  pkg <- json_loads e text ;;
  scripts <- PyDict.get pkg "scripts" ;;
  deps <- PyDict.get pkg "dependencies" ;;
  d1 <- PyDict.unpack deps ;;
  dev_deps <- PyDict.get pkg "devDependencies" ;;
  d2 <- PyDict.unpack dev_deps ;;
  let dependencies := PyDict.merge d1 d2 in
  vite <- exists_or (path_exists e (joinpath e project_path "vite.config.ts"))
                    (path_exists e (joinpath e project_path "vite.config.js")) ;;
  if vite then Some (Some vite_type)
  else if PyDict.has_key "react-scripts" dependencies then Some (Some cra_type)
  else if PyDict.has_key "@vue/cli-service" dependencies then Some (Some vue_cli_type)
  else
    has_build <- PyDict.py_in "build" scripts ;;
    if has_build then Some (Some frontend_type) else Some None.

(** [None] when the test [package_json.exists()], which stands before the
    [try], raises; every exception of the [try] block is swallowed. *)
Definition detect_project_type (e : Env) (project_dir : path) : option ProjectType :=
  let project_path := project_dir in
  let package_json := joinpath e project_path "package.json" in
  found <- path_exists e package_json ;;
  if found then
    match detect_try e project_path with
    | Some (Some t) => Some t
    | Some None => Some unknown_type
    | None => Some unknown_type
    end
  else Some unknown_type.

(** ** analyze_deploy_script *)

(** The lines the analysis works on: every piece of [content.split('\n')]
    that is neither blank nor a comment once stripped, stripped. *)
Definition keep_line (line : string) : bool :=
  PyStr.truthy (PyStr.strip line)
  && negb (PyStr.startswith "#" (PyStr.strip line)).

Definition script_lines (content : string) : list string :=
  map PyStr.strip (filter keep_line (PyStr.split_nl content)).

Definition initial_result (name : string) : AnalysisResult :=
  {| script := name; working_dir := None; commands := [];
     current_command := None; project_type := None;
     recommended_command := None |}.

(** One turn of the first loop: a line the pattern is found in overwrites
    [working_dir]. *)
Definition cd_step (result : AnalysisResult) (line : string) : AnalysisResult :=
  match CdPattern.search line with
  | Some g => set_working_dir result (Some g)
  | None => result
  end.

(** One turn of the second loop: a line that starts with ["cd "] is skipped,
    any other non-empty line is appended. *)
Definition command_step (result : AnalysisResult) (line : string) : AnalysisResult :=
  if PyStr.startswith "cd " line then result
  else if PyStr.truthy line then set_commands result (commands result ++ [line])%list
  else result.

(** [l[-1]] of a list known to be non-empty. *)
Definition last_item (l : list string) : option string :=
  match rev l with
  | [] => None
  | x :: _ => Some x
  end.

Definition pick_current (result : AnalysisResult) : AnalysisResult :=
  match commands result with
  | [] => result
  | _ :: _ => set_current_command result (last_item (commands result))
  end.

(** The last block: the project is classified only when [working_dir] is
    set and the directory it names under the script's directory exists.
    [None] when [project_path.exists()] or the detector raises. *)
Definition recommend (e : Env) (script_dir : path) (result : AnalysisResult)
  : option AnalysisResult :=
  match working_dir result with
  | Some wd =>
      if PyStr.truthy wd then
        let project_path := joinpath e script_dir wd in
        found <- path_exists e project_path ;;
        if found then
          pt <- detect_project_type e project_path ;;
          let result := set_project_type result (Some pt) in
          if PyStr.truthy_opt (build_command pt)
          then Some (set_recommended_command result (build_command pt))
          else Some (set_recommended_command result (current_command result))
        else Some result
      else Some result
  | None => Some result
  end.

(** The part of the analysis that reads the text only: the lines, the two
    loops and the choice of the current command. *)
Definition scan_script (name : string) (content : string) : AnalysisResult :=
  let lines := script_lines content in
  let result := initial_result name in
  let result := fold_left cd_step lines result in
  let result := fold_left command_step lines result in
  pick_current result.

(** The part of the analysis that follows the read of the file. *)
Definition analyze_content (e : Env) (script_path : path) (content : string)
  : option AnalysisResult :=
  let script_dir := parent e script_path in
  recommend e script_dir (scan_script (basename e script_path) content).

(** [None] when an exception leaves the function: the script cannot be
    read, or an existence test of the last block raises. *)
Definition analyze_deploy_script (e : Env) (script_path : path)
  : option AnalysisResult :=
  content <- read_text e script_path ;;
  analyze_content e script_path content.

(** ** Effects *)

Inductive effect : Type :=
| Print (s : string)
    (** [print(s)] *)
| PrintJson (j : json) (indent : option nat)
    (** [print(json.dumps(j, ensure_ascii=False, indent=indent))] *)
| DumpJson (p : path) (j : json) (indent : option nat)
    (** [json.dump(j, f, ensure_ascii=False, indent=indent)] into the file
        [p] opened for writing *)
| WriteText (p : path) (content : string)
    (** [f.write(content)] into the file [p] opened for writing *)
| Chmod (p : path) (mode : nat)
    (** [os.chmod(p, mode)] *)
| PrintHelp
    (** [parser.print_help()] *)
| Exit (code : nat).
    (** [sys.exit(code)] *)

(** The effects performed so far, and the value returned unless an exception
    escaped. *)
Definition M (A : Type) : Type := (list effect * option A)%type.

Definition ret {A : Type} (a : A) : M A := ([], Some a).

Definition raise {A : Type} : M A := ([], None).

Definition bind {A B : Type} (m : M A) (f : A -> M B) : M B :=
  match m with
  | (out, None) => (out, None)
  | (out, Some a) => let (out', r) := f a in ((out ++ out')%list, r)
  end.

Definition emit (ef : effect) : M unit := ([ef], Some tt).

(** A call that may raise and has no other effect. *)
Definition try_call {A : Type} (o : option A) : M A := ([], o).

Notation "x <~ m ;; k" := (bind m (fun x => k))
  (at level 61, m at next level, right associativity).
Notation "m ;;; k" := (bind m (fun _ => k))
  (at level 61, right associativity).

Definition effects {A : Type} (m : M A) : list effect := fst m.
Definition returned {A : Type} (m : M A) : option A := snd m.

Definition print (s : string) : M unit := emit (Print s).

Definition when (b : bool) (m : M unit) : M unit := if b then m else ret tt.

Fixpoint for_each {A : Type} (l : list A) (body : A -> M unit) : M unit :=
  match l with
  | [] => ret tt
  | x :: l' => body x ;;; for_each l' body
  end.

(** [open(p, 'w', encoding='utf-8')] followed by one write. *)
Definition write_text (e : Env) (p : path) (content : string) : M unit :=
  if writable e p then emit (WriteText p content) else raise.

Definition dump_json (e : Env) (p : path) (j : json) (indent : option nat) : M unit :=
  if writable e p then emit (DumpJson p j indent) else raise.

(** ** Discovery of the scripts *)

(** [sorted(l)]: a stable sort that compares with [<] only. *)
Fixpoint insert_sorted (e : Env) (x : path) (l : list path) : list path :=
  match l with
  | [] => [x]
  | y :: l' => if path_lt e y x then y :: insert_sorted e x l' else x :: l
  end.

Fixpoint sorted (e : Env) (l : list path) : list path :=
  match l with
  | [] => []
  | x :: l' => insert_sorted e x (sorted e l')
  end.

Definition deploy_glob : string := "deploy_server_*.sh".

(** [results = []; for script_path in sorted(deploy_scripts): ...append] *)
Fixpoint analyze_all (e : Env) (paths : list path) : option (list AnalysisResult) :=
  match paths with
  | [] => Some []
  | p :: ps =>
      result <- analyze_deploy_script e p ;;
      results <- analyze_all e ps ;;
      Some (result :: results)
  end.

(** ** The JSON array of deploy commands *)

Definition frontend : string := "frontend".

(** [result['project_type'] and result['project_type']['category'] == 'static'] *)
Definition is_static (result : AnalysisResult) : bool :=
  match project_type result with
  | Some pt => String.eqb (category pt) "static"
  | None => false
  end.

(** Whether the loop leaves a result out because its project is classified
    and the category is not static. *)
Definition not_static (result : AnalysisResult) : bool :=
  match project_type result with
  | Some pt => negb (String.eqb (category pt) "static")
  | None => false
  end.

(** One turn of the loop that fills [deploy_commands_json]; the loop is the
    same in [infer_deploy_commands] and in [output_json_only]. *)
Definition entry_step (acc : list DeployEntry) (result : AnalysisResult)
  : list DeployEntry :=
  match working_dir result, recommended_command result with
  | Some wd, Some rc =>
      if PyStr.truthy wd && PyStr.truthy rc then
        let project_type_str := frontend in
        if not_static result then acc
        else app acc [{| dir := wd; command := rc; entry_type := project_type_str |}]
      else acc
  | _, _ => acc
  end.

Definition deploy_commands_json (results : list AnalysisResult) : list DeployEntry :=
  fold_left entry_step results [].

Definition entry_json (d : DeployEntry) : json :=
  JObject [("dir", JString (dir d)); ("command", JString (command d));
           ("type", JString (entry_type d))].

Definition entries_json (ds : list DeployEntry) : json :=
  JArray (map entry_json ds).

Definition error_json (msg : string) : json :=
  JObject [("error", JString msg)].

(** ** Text fragments *)

Definition nl : string := String PyStr.newline EmptyString.

(** The double quote. *)
Definition dq : string := String (ascii_of_nat 34) EmptyString.

Definition rule80 (c : ascii) : string := PyStr.repeat_char c 80.

Definition dir_missing_msg (script_dir : path) : string :=
  "目录不存在: " ++ script_dir.

Definition no_scripts_msg (script_dir : path) : string :=
  "在 " ++ script_dir ++ " 目录下未找到 deploy_server_*.sh 脚本".

Definition found_msg (deploy_scripts : list path) : string :=
  "找到 " ++ PyStr.of_nat (List.length deploy_scripts) ++ " 个部署脚本:" ++ nl.

(** ** list_scripts *)

Definition list_scripts (e : Env) (target_dir : string) : M unit :=
  let script_dir := resolve e target_dir in
  found <~ try_call (path_exists e script_dir) ;;
  if negb found then
    print ("错误: " ++ dir_missing_msg script_dir)
  else
    let deploy_scripts := glob e script_dir deploy_glob in
    match deploy_scripts with
    | [] => print (no_scripts_msg script_dir)
    | _ :: _ =>
        print (found_msg deploy_scripts) ;;;
        for_each (sorted e deploy_scripts)
          (fun script_path => print ("  - " ++ basename e script_path))
    end.

(** ** output_json_only *)

Definition output_json_only (e : Env) (target_dir : string) : M unit :=
  let script_dir := resolve e target_dir in
  found <~ try_call (path_exists e script_dir) ;;
  if negb found then
    emit (PrintJson (error_json (dir_missing_msg script_dir)) None)
  else
    let deploy_scripts := glob e script_dir deploy_glob in
    match deploy_scripts with
    | [] => emit (PrintJson (error_json (no_scripts_msg script_dir)) None)
    | _ :: _ =>
        results <~ try_call (analyze_all e (sorted e deploy_scripts)) ;;
        emit (PrintJson (entries_json (deploy_commands_json results)) (Some 2))
    end.

(** ** infer_deploy_commands *)

(** [for i, cmd in enumerate(cmds, i): print(f"  {i}. {cmd}")] *)
Fixpoint print_numbered (i : nat) (cmds : list string) : M unit :=
  match cmds with
  | [] => ret tt
  | cmd :: cmds' =>
      print ("  " ++ PyStr.of_nat i ++ ". " ++ cmd) ;;;
      print_numbered (S i) cmds'
  end.

(** What the first loop prints for one result. *)
Definition report_result (result : AnalysisResult) : M unit :=
  print (nl ++ "脚本: " ++ script result) ;;;
  print (rule80 "-") ;;;
  match working_dir result with
  | Some wd => when (PyStr.truthy wd) (print ("工作目录: " ++ wd))
  | None => ret tt
  end ;;;
  match project_type result with
  | Some pt =>
      print ("项目类型: " ++ description pt) ;;;
      print ("  类别: " ++ category pt)
  | None => ret tt
  end ;;;
  match commands result with
  | [] => ret tt
  | cmds =>
      print (nl ++ "当前脚本中的命令:") ;;;
      print_numbered 1 cmds
  end ;;;
  match current_command result with
  | Some cc => when (PyStr.truthy cc) (print (nl ++ "当前使用的命令: " ++ cc))
  | None => ret tt
  end ;;;
  match recommended_command result with
  | Some rc =>
      if PyStr.truthy rc then
        print (nl ++ "推荐的部署命令: " ++ rc) ;;;
        match current_command result with
        | Some cc =>
            when (PyStr.truthy cc && PyStr.contains "dev" (PyStr.lower cc)
                  && is_static result)
              (print "  ⚠️  注意: 当前使用的是开发服务器命令，生产环境应使用构建命令")
        | None => ret tt
        end
      else print (nl ++ "⚠️  警告: 未能推断出推荐的部署命令")
  | None => print (nl ++ "⚠️  警告: 未能推断出推荐的部署命令")
  end.

(** The first loop: analyse, append, report; an analysis that raises ends
    the run after the reports already printed. *)
Fixpoint analyze_and_report (e : Env) (paths : list path)
  (results : list AnalysisResult) : M (list AnalysisResult) :=
  match paths with
  | [] => ret results
  | script_path :: paths' =>
      result <~ try_call (analyze_deploy_script e script_path) ;;
      let results := (results ++ [result])%list in
      report_result result ;;;
      analyze_and_report e paths' results
  end.

(** The summary of recommended commands. *)
Definition summary_line (result : AnalysisResult) : M unit :=
  match recommended_command result with
  | Some rc =>
      when (PyStr.truthy rc)
        (let project_info :=
           match project_type result with
           | Some pt => " (" ++ description pt ++ ")"
           | None => ""
           end in
         print ("  " ++ script result ++ project_info ++ ":") ;;;
         print ("    " ++ rc))
  | None => ret tt
  end.

(** [Counter(l)] as its items in first-seen order. *)
Fixpoint count_add (x : string) (c : list (string * nat)) : list (string * nat) :=
  match c with
  | [] => [(x, 1)]
  | (y, n) :: c' =>
      if String.eqb x y then (y, S n) :: c' else (y, n) :: count_add x c'
  end.

Definition counter (l : list string) : list (string * nat) :=
  fold_left (fun c x => count_add x c) l [].

(** [most_common()]: by count, largest first, ties in first-seen order. *)
Fixpoint insert_by_count (x : string * nat) (l : list (string * nat))
  : list (string * nat) :=
  match l with
  | [] => [x]
  | y :: l' =>
      if Nat.ltb (snd x) (snd y) then y :: insert_by_count x l' else x :: l
  end.

Definition most_common (c : list (string * nat)) : list (string * nat) :=
  fold_right insert_by_count [] c.

Definition project_types (results : list AnalysisResult) : list string :=
  flat_map (fun r => match project_type r with
                     | Some pt => [type pt]
                     | None => []
                     end) results.

Definition type_statistics (results : list AnalysisResult) : M unit :=
  match project_types results with
  | [] => ret tt
  | types =>
      print (nl ++ "项目类型统计:") ;;;
      for_each (most_common (counter types))
        (fun tc => print ("  " ++ fst tc ++ ": " ++ PyStr.of_nat (snd tc) ++ " 个"))
  end.

(** The value returned is [None] on the three early returns and the pair
    [(results, deploy_commands_json)] otherwise. *)
Definition infer_deploy_commands (e : Env) (target_dir : option string)
  : M (option (list AnalysisResult * list DeployEntry)) :=
  match target_dir with
  | None => print "错误: 未提供目标目录" ;;; ret None
  | Some target_dir =>
      let script_dir := resolve e target_dir in
      found <~ try_call (path_exists e script_dir) ;;
      if negb found then
        print ("错误: " ++ dir_missing_msg script_dir) ;;; ret None
      else
        let deploy_scripts := glob e script_dir deploy_glob in
        match deploy_scripts with
        | [] => print (no_scripts_msg script_dir) ;;; ret None
        | _ :: _ =>
            print (found_msg deploy_scripts) ;;;
            print (rule80 "=") ;;;
            results <~ analyze_and_report e (sorted e deploy_scripts) [] ;;
            print (nl ++ rule80 "=") ;;;
            print (nl ++ "总结:") ;;;
            print (rule80 "-") ;;;
            print (nl ++ "推荐的部署命令:") ;;;
            for_each results summary_line ;;;
            type_statistics results ;;;
            let entries := deploy_commands_json results in
            let json_output_path := joinpath e script_dir "deploy_commands.json" in
            dump_json e json_output_path (entries_json entries) (Some 2) ;;;
            print (nl ++ rule80 "=") ;;;
            print (nl ++ "JSON 输出已保存到: " ++ json_output_path) ;;;
            print (nl ++ "JSON 内容:") ;;;
            emit (PrintJson (entries_json entries) (Some 2)) ;;;
            ret (Some (results, entries))
        end
  end.

(** ** generate_shell_script *)

Definition script_header (script_dir : path) : list string :=
  [ "#!/bin/bash";
    "# 自动生成的部署脚本";
    "# 功能: 进入目录、执行构建命令、复制dist产物到/website目录";
    "";
    "set -e  # 遇到错误立即退出";
    "";
    "# 输出目录";
    "OUTPUT_DIR=" ++ dq ++ "$1" ++ dq;
    "# 脚本基础目录";
    "BASE_DIR=" ++ dq ++ script_dir ++ dq;
    "cd " ++ dq ++ "$BASE_DIR" ++ dq;
    "" ].

(** The line that enters a project's directory. *)
Definition cd_line (working_dir : string) : string :=
  "cd " ++ dq ++ "$BASE_DIR/" ++ working_dir ++ dq.

(** The lines appended for one project that passed the tests of the loop.
    The nested f-string of the copy notice yields the text [${OUTPUT_DIR}]. *)
Definition project_lines (result : AnalysisResult) (working_dir build_command : string)
  : list string :=
  app ["# 项目: " ++ script result]
 (app match project_type result with
      | Some pt => ["# 类型: " ++ description pt]
      | None => []
      end
      [ "";
        "echo " ++ dq ++ "进入目录: " ++ working_dir ++ dq;
        cd_line working_dir;
        "";
        "echo " ++ dq ++ "执行构建命令: " ++ build_command ++ dq;
        build_command;
        "";
        "echo " ++ dq ++ "复制dist产物到" ++ "${OUTPUT_DIR}" ++ "目录" ++ dq;
        "if [ -d " ++ dq ++ "$BASE_DIR/" ++ working_dir ++ "/dist" ++ dq ++ " ]; then";
        "    mkdir -p $OUTPUT_DIR";
        "    cp -r dist/* $OUTPUT_DIR";
        "    echo " ++ dq ++ "复制完成" ++ dq;
        "else";
        "    echo " ++ dq ++ "警告: dist目录不存在，跳过复制" ++ dq;
        "fi";
        "";
        "echo " ++ dq ++ "---" ++ dq;
        "" ]).

(** One turn of the loop over the results. *)
Definition script_step (script_lines : list string) (result : AnalysisResult)
  : list string :=
  match working_dir result, recommended_command result with
  | Some wd, Some rc =>
      if negb (PyStr.truthy wd) || negb (PyStr.truthy rc) then script_lines
      else if not_static result then script_lines
      else
        let working_dir := wd in
        let build_command := rc in
        let build_command :=
          if is_static result then "npm install && " ++ build_command
          else build_command in
        app script_lines (project_lines result working_dir build_command)
  | _, _ => script_lines
  end.

Definition shell_script_lines (script_dir : path) (results : list AnalysisResult)
  : list string :=
  fold_left script_step results (script_header script_dir).

(** The error report of the two early returns. *)
Definition script_error (e : Env) (output_path : option string) (error_msg : string)
  : M unit :=
  match output_path with
  | Some out =>
      if PyStr.truthy out
      then write_text e out ("#!/bin/bash" ++ nl ++ "# " ++ error_msg ++ nl)
      else print error_msg
  | None => print error_msg
  end.

(** The last block: the script goes to the file, which is made executable,
    or to the console. *)
Definition write_script (e : Env) (output_path : option string)
  (script_content : string) : M unit :=
  match output_path with
  | Some out =>
      if PyStr.truthy out then
        let output_file := to_path e out in
        write_text e output_file script_content ;;;
        emit (Chmod output_file 493) ;;;
        print ("Shell脚本已生成: " ++ output_file)
      else print script_content
  | None => print script_content
  end.

Definition generate_shell_script (e : Env) (target_dir : string)
  (output_path : option string) : M unit :=
  let script_dir := resolve e target_dir in
  found <~ try_call (path_exists e script_dir) ;;
  if negb found then
    script_error e output_path ("错误: " ++ dir_missing_msg script_dir)
  else
    let deploy_scripts := glob e script_dir deploy_glob in
    match deploy_scripts with
    | [] => script_error e output_path (no_scripts_msg script_dir)
    | _ :: _ =>
        results <~ try_call (analyze_all e (sorted e deploy_scripts)) ;;
        let script_content := PyStr.join_nl (shell_script_lines script_dir results) in
        write_script e output_path script_content
    end.

(** ** main *)

(** The namespace [argparse] hands back. *)
Inductive Args : Type :=
| NoCommand
| Analyze (target_dir : string)
| ListScripts (target_dir : string)
| Json (target_dir : string)
| Script (target_dir : string) (output_path : option string).

(** The dispatch that follows [parser.parse_args()]. *)
Definition main (e : Env) (args : Args) : M unit :=
  match args with
  | NoCommand => emit PrintHelp ;;; emit (Exit 1) ;;; raise
  | Analyze target_dir => infer_deploy_commands e (Some target_dir) ;;; ret tt
  | ListScripts target_dir => list_scripts e target_dir
  | Json target_dir => output_json_only e target_dir
  | Script target_dir output_path => generate_shell_script e target_dir output_path
  end.

(** ** A concrete environment

    A small in-memory file system with POSIX-like paths, used to run the
    embedding on concrete inputs. *)

Module Fixture.

Inductive node : Type :=
| Dir
| File (content : string).

Definition tree := list (path * node).

Fixpoint find (t : tree) (p : path) : option node :=
  match t with
  | [] => None
  | (q, n) :: t' => if String.eqb p q then Some n else find t' p
  end.

(** The text before and after the last ["/"] of [p]. *)
Fixpoint split_last (p : string) : option (string * string) :=
  match p with
  | EmptyString => None
  | String c p' =>
      match split_last p' with
      | Some (d, b) => Some (String c d, b)
      | None => if Ascii.eqb c "/" then Some (EmptyString, p') else None
      end
  end.

Definition fx_parent (p : path) : path :=
  match split_last p with
  | Some (d, _) => d
  | None => "."
  end.

Definition fx_basename (p : path) : string :=
  match split_last p with
  | Some (_, b) => b
  | None => p
  end.

Definition fx_join (d : path) (s : string) : path :=
  if PyStr.startswith "/" s then s else d ++ "/" ++ s.

Fixpoint ends_with (suffix s : string) : bool :=
  String.eqb suffix s ||
  match s with
  | EmptyString => false
  | String _ s' => ends_with suffix s'
  end.

(** The files directly under [d] named [deploy_server_*.sh]; the pattern
    argument is the one the program always passes. *)
Definition fx_glob (t : tree) (d : path) (pattern : string) : list path :=
  map fst
    (filter (fun pn =>
               String.eqb (fx_parent (fst pn)) d
               && PyStr.startswith "deploy_server_" (fx_basename (fst pn))
               && ends_with ".sh" (fx_basename (fst pn))
               && Nat.leb 17 (String.length (fx_basename (fst pn))))
            t).

Definition fx_read (t : tree) (p : path) : option string :=
  match find t p with
  | Some (File content) => Some content
  | _ => None
  end.

Definition fx_exists (t : tree) (p : path) : bool :=
  match find t p with
  | Some _ => true
  | None => false
  end.

(** The json reader of a fixture is the table of the manifests it holds:
    a text outside the table does not parse. *)
Fixpoint fx_loads (table : list (string * json)) (text : string) : option json :=
  match table with
  | [] => None
  | (t, v) :: table' => if String.eqb text t then Some v else fx_loads table' text
  end.

Definition env_of (t : tree) (table : list (string * json)) : Env :=
  {| to_path := fun s => s;
     resolve := fun s => s;
     path_exists := fun p => Some (fx_exists t p);
     joinpath := fx_join;
     parent := fx_parent;
     basename := fx_basename;
     glob := fx_glob t;
     path_lt := String.ltb;
     read_text := fx_read t;
     json_loads := fx_loads table;
     writable := fun _ => true |}.

(** The same, but for the paths of [failing]: the existence test raises on
    them and they cannot be opened. *)
Definition env_failing (t : tree) (table : list (string * json))
  (failing : path -> bool) : Env :=
  {| to_path := fun s => s;
     resolve := fun s => s;
     path_exists := fun p => if failing p then None else Some (fx_exists t p);
     joinpath := fx_join;
     parent := fx_parent;
     basename := fx_basename;
     glob := fx_glob t;
     path_lt := String.ltb;
     read_text := fun p => if failing p then None else fx_read t p;
     json_loads := fx_loads table;
     writable := fun _ => true |}.

(** Manifest texts and what [json.load] makes of them. *)
Definition manifest_build : string :=
  "{" ++ dq ++ "scripts" ++ dq ++ ": {" ++ dq ++ "build" ++ dq ++ ": "
      ++ dq ++ "vite build" ++ dq ++ "}}".

Definition manifest_null_deps : string :=
  "{" ++ dq ++ "dependencies" ++ dq ++ ": null}".

Definition manifests : list (string * json) :=
  [ (manifest_build, JObject [("scripts", JObject [("build", JString "vite build")])]);
    (manifest_null_deps, JObject [("dependencies", JNull)]);
    ("[]", JArray []);
    ("{}", JObject []) ].

(** [/srv] holds four deploy scripts: a bundler project, a directory with no
    manifest, a directory that does not exist and a broken manifest. *)
Definition srv : tree :=
  [ ("/srv", Dir);
    ("/srv/deploy_server_web.sh", File ("#!/bin/bash" ++ nl ++ "cd app/frontend" ++ nl ++ "npm run dev" ++ nl));
    ("/srv/deploy_server_api.sh", File ("cd api" ++ nl ++ "node server.js"));
    ("/srv/deploy_server_old.sh", File ("cd gone" ++ nl ++ "npm start"));
    ("/srv/deploy_server_bad.sh", File ("cd bad" ++ nl ++ "npm run serve"));
    ("/srv/notes.txt", File "cd nowhere");
    ("/srv/app", Dir);
    ("/srv/app/frontend", Dir);
    ("/srv/app/frontend/package.json", File manifest_build);
    ("/srv/app/frontend/vite.config.ts", File "export default {}");
    ("/srv/api", Dir);
    ("/srv/bad", Dir);
    ("/srv/bad/package.json", File "{") ].

Definition srv_env : Env := env_of srv manifests.

(** [/work/site] is a bundler project whose manifest gives [null] for its
    dependencies. *)
Definition work : tree :=
  [ ("/work", Dir);
    ("/work/deploy_server_site.sh", File ("cd site" ++ nl ++ "npm run dev"));
    ("/work/site", Dir);
    ("/work/site/package.json", File manifest_null_deps);
    ("/work/site/vite.config.ts", File "export default {}") ].

Definition work_env : Env := env_of work manifests.

End Fixture.

(** * Vocabulary of the properties *)

(** ** The loops of the analysis in closed form *)

(** What the first loop leaves in [working_dir]: the capture of the last
    line the pattern is found in. *)
Definition last_match (lines : list string) (init : option string) : option string :=
  fold_left (fun acc line =>
               match CdPattern.search line with
               | Some g => Some g
               | None => acc
               end) lines init.

(** The test of the second loop for a line it keeps. *)
Definition is_command (line : string) : bool :=
  negb (PyStr.startswith "cd " line) && PyStr.truthy line.

(** The current command of a list of commands. *)
Definition current_of (cmds : list string) : option string :=
  match cmds with
  | [] => None
  | _ :: _ => last_item cmds
  end.

(** The result as it stands before the project is looked at. *)
Definition parsed_result (name : string) (lines : list string) : AnalysisResult :=
  {| script := name;
     working_dir := last_match lines None;
     commands := filter is_command lines;
     current_command := current_of (filter is_command lines);
     project_type := None;
     recommended_command := None |}.

(** ** Change-directory lines as the specification words them:
    a change-directory line starts with the keyword [cd], then whitespace,
    then a path token that ends at the next whitespace; the token is its
    argument. *)

(** The characters of [s] up to its first whitespace. *)
Fixpoint token (s : string) : string :=
  match s with
  | EmptyString => EmptyString
  | String c s' => if PyStr.is_space c then EmptyString else String c (token s')
  end.

(** The argument of a change-directory line, [None] for any other line. *)
Definition cd_argument (line : string) : option string :=
  match line with
  | String "c" (String "d" (String c rest)) =>
      if PyStr.is_space c then
        match token (PyStr.lstrip rest) with
        | EmptyString => None
        | String _ _ as t => Some t
        end
      else None
  | _ => None
  end.

Definition is_cd_line (line : string) : bool :=
  match cd_argument line with
  | Some _ => true
  | None => false
  end.

(** The argument of the last change-directory line. *)
Definition last_cd_argument (lines : list string) : option string :=
  fold_left (fun acc line =>
               match cd_argument line with
               | Some a => Some a
               | None => acc
               end) lines None.

(** The horizontal tab. *)
Definition tab : string := String (ascii_of_nat 9) EmptyString.

(** ** Results of the analysis *)

(** The five types [detect_project_type] has a [return] for. *)
Definition known_types : list ProjectType :=
  [vite_type; cra_type; vue_cli_type; frontend_type; unknown_type].

(** What holds of every result the analysis returns. *)
Definition well_formed (r : AnalysisResult) : Prop :=
  (forall wd, working_dir r = Some wd -> PyStr.truthy wd = true) /\
  match project_type r with
  | None => recommended_command r = None
  | Some pt =>
      (exists wd, working_dir r = Some wd) /\
      In pt known_types /\
      recommended_command r
      = (if PyStr.truthy_opt (build_command pt) then build_command pt
         else current_command r)
  end.

(** ** The directories a generated script changes into *)

(** [s] without its prefix [p], [None] when [s] does not start with [p]. *)
Fixpoint strip_prefix (p s : string) : option string :=
  match p, s with
  | EmptyString, _ => Some s
  | String a p', String b s' => if Ascii.eqb a b then strip_prefix p' s' else None
  | String _ _, EmptyString => None
  end.

(** [s] without its last character, which has to be the double quote. *)
Fixpoint drop_closing_quote (s : string) : option string :=
  match s with
  | EmptyString => None
  | String c EmptyString =>
      if Ascii.eqb c (ascii_of_nat 34) then Some EmptyString else None
  | String c s' => option_map (String c) (drop_closing_quote s')
  end.

(** The directory of a line [cd "$BASE_DIR/<directory>"]. *)
Definition cd_target (line : string) : option string :=
  match strip_prefix ("cd " ++ dq ++ "$BASE_DIR/") line with
  | Some rest => drop_closing_quote rest
  | None => None
  end.

(** A text that holds no newline. *)
Fixpoint one_line (s : string) : bool :=
  match s with
  | EmptyString => true
  | String c s' => negb (PyStr.is_newline c) && one_line s'
  end.

(** The directories the lines of a script enter, in order. *)
Definition changed_dirs (lines : list string) : list string :=
  flat_map (fun line => match cd_target line with
                        | Some d => [d]
                        | None => []
                        end) lines.










(** ** Runs of the subcommands *)

(** The JSON documents a run prints or writes. *)
Definition json_payloads (effs : list effect) : list json :=
  flat_map (fun ef => match ef with
                      | PrintJson j _ => [j]
                      | DumpJson _ j _ => [j]
                      | _ => []
                      end) effs.

(** The JSON documents of a computation. *)
Definition payloads {A : Type} (m : M A) : list json := json_payloads (effects m).

(** A computation that prints text only and returns. *)
Definition quiet (m : M unit) : Prop := payloads m = [] /\ returned m = Some tt.

(** What [infer_deploy_commands] writes and prints as JSON, and returns. *)
Definition analyze_outcome (e : Env) (target_dir : string)
  : list json * option (option (list AnalysisResult * list DeployEntry)) :=
  let script_dir := resolve e target_dir in
  match path_exists e script_dir with
  | None => ([], None)
  | Some false => ([], Some None)
  | Some true =>
    match glob e script_dir deploy_glob with
    | [] => ([], Some None)
    | deploy_scripts =>
        match analyze_all e (sorted e deploy_scripts) with
        | None => ([], None)
        | Some results =>
            let entries := deploy_commands_json results in
            if writable e (joinpath e script_dir "deploy_commands.json")
            then ([entries_json entries; entries_json entries],
                  Some (Some (results, entries)))
            else ([], None)
        end
    end
  end.

(** ** The classification rules *)

(** The member [k] of a manifest when it is an object, the empty object
    when it is absent. *)
Definition mapping_member (k : string) (members : PyDict.dict) : option PyDict.dict :=
  match PyDict.lookup k members with
  | None => Some []
  | Some (JObject m) => Some m
  | Some _ => None
  end.

(** [pkg.get(k, {})] on the members of a manifest. *)
Definition member_or_empty (k : string) (members : PyDict.dict) : json :=
  match PyDict.lookup k members with
  | Some v => v
  | None => JObject []
  end.

(** The rules of the specification, in their order: a rule is its condition
    and the type it assigns.  [vite] says whether a bundler configuration
    file exists; the dependencies are the runtime and the development ones;
    the fourth rule asks for a [build] entry among the scripts. *)
Definition classification_rules (vite : bool) (deps dev_deps scripts : PyDict.dict)
  : list (bool * ProjectType) :=
  [ (vite, vite_type);
    (PyDict.has_key "react-scripts" deps || PyDict.has_key "react-scripts" dev_deps,
     cra_type);
    (PyDict.has_key "@vue/cli-service" deps || PyDict.has_key "@vue/cli-service" dev_deps,
     vue_cli_type);
    (PyDict.has_key "build" scripts, frontend_type) ].

(** First match wins; no match is the unknown type. *)
Definition first_match (rules : list (bool * ProjectType)) : ProjectType :=
  match find fst rules with
  | Some rule => snd rule
  | None => unknown_type
  end.

(** The reading of "present and parseable" under which the bundler rule
    would win whatever the manifest holds. *)
Definition bundler_rule_unconditional : Prop :=
  forall (e : Env) (d : path) (text : string) (pkg : json),
    path_exists e (joinpath e d "package.json") = Some true ->
    read_text e (joinpath e d "package.json") = Some text ->
    json_loads e text = Some pkg ->
    path_exists e (joinpath e d "vite.config.ts") = Some true ->
    detect_project_type e d = Some vite_type.

(** The existence test of the manifest of [d] answers, and the manifest is
    absent, cannot be read, or is not JSON. *)
Definition manifest_unusable (e : Env) (d : path) : Prop :=
  path_exists e (joinpath e d "package.json") = Some false
  \/ (path_exists e (joinpath e d "package.json") = Some true
      /\ (read_text e (joinpath e d "package.json") = None
          \/ exists text, read_text e (joinpath e d "package.json") = Some text
                          /\ json_loads e text = None)).

(** [/vault/app] is a project directory that may not be searched: every
    test on a path below it raises, and its manifest cannot be opened. *)
Definition vault : Fixture.tree :=
  [ ("/vault", Fixture.Dir);
    ("/vault/deploy_server_app.sh", Fixture.File ("cd app" ++ nl ++ "npm run dev"));
    ("/vault/app", Fixture.Dir);
    ("/vault/app/package.json", Fixture.File Fixture.manifest_build) ].

Definition vault_env : Env :=
  Fixture.env_failing vault Fixture.manifests (PyStr.startswith "/vault/app/").

(** A file system on which a test of a path whose last component is longer
    than 255 characters raises. *)
Definition name_too_long (p : path) : bool :=
  Nat.ltb 255 (String.length (Fixture.fx_basename p)).

Definition long_name : string := PyStr.repeat_char "a" 300.

Definition limits_env : Env :=
  Fixture.env_failing Fixture.srv Fixture.manifests name_too_long.

(** ** The JSON documents *)

(** An element of the printed array whose [type] member is ["frontend"]. *)
Definition typed_frontend (item : json) : Prop :=
  exists d c, item = JObject [("dir", JString d); ("command", JString c);
                              ("type", JString "frontend")].

(** A JSON document of the analyze and json outputs: the error object, or
    an array of such elements. *)
Definition frontend_document (j : json) : Prop :=
  (exists msg, j = error_json msg)
  \/ exists items, j = JArray items /\ Forall typed_frontend items.


(** ** Shapes of lines and of the working directory *)

(** A text of ASCII characters only.  On such a text the whitespace of
    [str.strip] and of the pattern's [\s] is the whitespace of
    [PyStr.is_space]. *)
Fixpoint ascii_text (s : string) : bool :=
  match s with
  | EmptyString => true
  | String c s' => Nat.ltb (nat_of_ascii c) 128 && ascii_text s'
  end.

(** A text that holds no whitespace. *)
Fixpoint no_space (s : string) : bool :=
  match s with
  | EmptyString => true
  | String c s' => negb (PyStr.is_space c) && no_space s'
  end.

(** [s] starts with [cd] and a whitespace character. *)
Definition starts_cd_space (s : string) : bool :=
  match s with
  | String "c" (String "d" (String c _)) => PyStr.is_space c
  | _ => false
  end.

(** [cd] and a whitespace character occur somewhere in [s]. *)
Fixpoint has_cd_space (s : string) : bool :=
  starts_cd_space s ||
  match s with
  | EmptyString => false
  | String _ s' => has_cd_space s'
  end.

(** [cd] and a whitespace character do not occur in [s] past its start. *)
Definition cd_only_at_start (s : string) : bool :=
  match s with
  | EmptyString => true
  | String _ s' => negb (has_cd_space s')
  end.

(** ** More on the runs *)

(** An element of the printed array that names a directory, as one token,
    with the command [npm run build]. *)
Definition build_entry (item : json) : Prop :=
  exists d, PyStr.truthy d = true /\ no_space d = true /\
            item = JObject [("dir", JString d); ("command", JString "npm run build");
                            ("type", JString "frontend")].

(** The error object, or an array of such elements. *)
Definition build_document (j : json) : Prop :=
  (exists msg, j = error_json msg)
  \/ exists items, j = JArray items /\ Forall build_entry items.

(** The block of the generated script for a static result. *)
Definition static_block (r : AnalysisResult) : list string :=
  match working_dir r with
  | Some wd => project_lines r wd "npm install && npm run build"
  | None => []
  end.

(** The paths a run writes to or changes the mode of. *)
Definition touched_paths (effs : list effect) : list path :=
  flat_map (fun ef => match ef with
                      | DumpJson p _ _ => [p]
                      | WriteText p _ => [p]
                      | Chmod p _ => [p]
                      | _ => []
                      end) effs.

(** The paths a computation touches. *)
Definition touched {A : Type} (m : M A) : list path := touched_paths (effects m).

(** A computation that touches no path and returns. *)
Definition text_only (m : M unit) : Prop :=
  touched m = [] /\ returned m = Some tt.

(** [/jobs] holds a deploy script that cannot be read as a file: it is a
    directory. *)
Definition jobs : Fixture.tree :=
  [ ("/jobs", Fixture.Dir);
    ("/jobs/deploy_server_a.sh", Fixture.File ("cd a" ++ nl ++ "npm start"));
    ("/jobs/deploy_server_b.sh", Fixture.Dir) ].

Definition jobs_env : Env := Fixture.env_of jobs Fixture.manifests.

(** [lt] is a strict total order on paths. *)
Definition strict_total_order (lt : path -> path -> bool) : Prop :=
  (forall x, lt x x = false)
  /\ (forall x y z, lt x y = true -> lt y z = true -> lt x z = true)
  /\ (forall x y, x <> y -> lt x y = true \/ lt y x = true).

(** The line that warns of a development server. *)
Definition dev_warning : string :=
  "  ⚠️  注意: 当前使用的是开发服务器命令，生产环境应使用构建命令".

(** * Properties *)

(** ** Runs on the fixture *)

Example search_first_token :
  CdPattern.search "cd   app/frontend  && npm ci" = Some "app/frontend".
Proof. reflexivity. Qed.

Example search_bare_cd : CdPattern.search "cd" = None.
Proof. reflexivity. Qed.

Example lines_of_web_script :
  script_lines ("#!/bin/bash" ++ nl ++ "  cd app/frontend " ++ nl ++ nl
                ++ "# start" ++ nl ++ "npm run dev" ++ nl)
  = ["cd app/frontend"; "npm run dev"].
Proof. reflexivity. Qed.

Example srv_scripts_sorted :
  sorted Fixture.srv_env (glob Fixture.srv_env "/srv" deploy_glob)
  = ["/srv/deploy_server_api.sh"; "/srv/deploy_server_bad.sh";
     "/srv/deploy_server_old.sh"; "/srv/deploy_server_web.sh"].
Proof. reflexivity. Qed.

Example srv_web_analysis :
  analyze_deploy_script Fixture.srv_env "/srv/deploy_server_web.sh"
  = Some {| script := "deploy_server_web.sh";
            working_dir := Some "app/frontend";
            commands := ["npm run dev"];
            current_command := Some "npm run dev";
            project_type := Some vite_type;
            recommended_command := Some "npm run build" |}.
Proof. reflexivity. Qed.

Example srv_json :
  main Fixture.srv_env (Json "/srv")
  = ([PrintJson (JArray [JObject [("dir", JString "app/frontend");
                                  ("command", JString "npm run build");
                                  ("type", JString "frontend")]]) (Some 2)],
     Some tt).
Proof. reflexivity. Qed.

Example srv_script_dirs :
  match main Fixture.srv_env (Script "/srv" None) with
  | ([Print text], Some tt) => changed_dirs (PyStr.split_nl text)
  | _ => []
  end = ["app/frontend"].
Proof. reflexivity. Qed.

Example srv_analyze_returns :
  option_map (option_map snd) (returned (infer_deploy_commands Fixture.srv_env (Some "/srv")))
  = Some (Some [{| dir := "app/frontend"; command := "npm run build";
                   entry_type := "frontend" |}]).
Proof. reflexivity. Qed.

(** ** The two loops of the analysis in closed form *)

Lemma set_working_dir_id r : set_working_dir r (working_dir r) = r.
Proof. destruct r; reflexivity. Qed.

Lemma set_commands_id r : set_commands r (commands r) = r.
Proof. destruct r; reflexivity. Qed.

Lemma cd_loop_closed lines : forall r,
  fold_left cd_step lines r = set_working_dir r (last_match lines (working_dir r)).
Proof.
  induction lines as [|line lines IH]; intros r; simpl.
  - symmetry; apply set_working_dir_id.
  - rewrite IH. unfold cd_step, last_match. simpl.
    destruct (CdPattern.search line); reflexivity.
Qed.

Lemma command_loop_closed lines : forall r,
  fold_left command_step lines r
  = set_commands r (commands r ++ filter is_command lines)%list.
Proof.
  induction lines as [|line lines IH]; intros r; simpl.
  - rewrite app_nil_r. symmetry; apply set_commands_id.
  - rewrite IH. unfold command_step, is_command.
    destruct (PyStr.startswith "cd " line); simpl; [reflexivity|].
    destruct (PyStr.truthy line); simpl; [|reflexivity].
    rewrite <- app_assoc. reflexivity.
Qed.

Lemma scan_script_closed name content :
  scan_script name content = parsed_result name (script_lines content).
Proof.
  unfold scan_script. rewrite cd_loop_closed, command_loop_closed.
  unfold pick_current, parsed_result, current_of; simpl.
  destruct (filter is_command (script_lines content)); reflexivity.
Qed.

Lemma analyze_content_closed e p content :
  analyze_content e p content
  = recommend e (parent e p) (parsed_result (basename e p) (script_lines content)).
Proof. unfold analyze_content. rewrite scan_script_closed. reflexivity. Qed.

Ltac recommend_cases H :=
  unfold recommend in H;
  match type of H with
  | context [working_dir ?r] =>
      let E := fresh "E" in
      destruct (working_dir r) as [?wd|] eqn:E;
      [ destruct (PyStr.truthy wd);
        [ destruct (path_exists _ _) as [[|]|];
          [ simpl in H; destruct (detect_project_type _ _) as [?pt|];
            [ simpl in H; destruct (PyStr.truthy_opt _) | ]
          | | ]
        | ]
      | ]; simpl in H; inversion H; subst; clear H
  end.

Lemma recommend_working_dir e d r r' :
  recommend e d r = Some r' -> working_dir r' = working_dir r.
Proof. intros H. recommend_cases H; simpl; congruence. Qed.

Lemma recommend_commands e d r r' :
  recommend e d r = Some r' -> commands r' = commands r.
Proof. intros H. recommend_cases H; reflexivity. Qed.

Lemma recommend_current_command e d r r' :
  recommend e d r = Some r' -> current_command r' = current_command r.
Proof. intros H. recommend_cases H; reflexivity. Qed.

Lemma recommend_script e d r r' :
  recommend e d r = Some r' -> script r' = script r.
Proof. intros H. recommend_cases H; reflexivity. Qed.

Lemma analyze_working_dir e p content r :
  analyze_content e p content = Some r ->
  working_dir r = last_match (script_lines content) None.
Proof.
  rewrite analyze_content_closed. intros H.
  rewrite (recommend_working_dir _ _ _ _ H). reflexivity.
Qed.

Lemma analyze_commands e p content r :
  analyze_content e p content = Some r ->
  commands r = filter is_command (script_lines content).
Proof.
  rewrite analyze_content_closed. intros H.
  rewrite (recommend_commands _ _ _ _ H). reflexivity.
Qed.

Lemma analyze_current_command e p content r :
  analyze_content e p content = Some r ->
  current_command r = current_of (filter is_command (script_lines content)).
Proof.
  rewrite analyze_content_closed. intros H.
  rewrite (recommend_current_command _ _ _ _ H). reflexivity.
Qed.

(** ** The pattern on change-directory lines *)

Lemma lazy_group_token t :
  token t <> EmptyString -> CdPattern.lazy_group t = Some (token t).
Proof.
  induction t as [|c t IH]; simpl; [congruence|].
  destruct (PyStr.is_space c) eqn:Hc; [congruence|]. intros _.
  assert (Hn : PyStr.is_newline c = false).
  { unfold PyStr.is_newline. destruct (Ascii.eqb c PyStr.newline) eqn:E; [|reflexivity].
    apply Ascii.eqb_eq in E. subst c. discriminate Hc. }
  rewrite Hn. destruct t as [|c' t']; simpl; [reflexivity|].
  destruct (PyStr.is_space c') eqn:Hc'; simpl; [reflexivity|].
  destruct (PyStr.is_newline c' && _) eqn:Hterm.
  - apply andb_true_iff in Hterm. destruct Hterm as [Hterm _].
    unfold PyStr.is_newline in Hterm. apply Ascii.eqb_eq in Hterm. subst c'.
    discriminate Hc'.
  - simpl in IH. rewrite Hc' in IH. rewrite IH by congruence. reflexivity.
Qed.

Lemma spaces_group_token c rest :
  PyStr.is_space c = true ->
  token (PyStr.lstrip rest) <> EmptyString ->
  CdPattern.spaces_group (String c rest) = Some (token (PyStr.lstrip rest)).
Proof.
  revert c. induction rest as [|c' rest IH]; intros c Hc Htok.
  - simpl in Htok. congruence.
  - cbn [CdPattern.spaces_group]. rewrite Hc.
    destruct (PyStr.is_space c') eqn:Hc'.
    + cbn [PyStr.lstrip] in Htok |- *. rewrite Hc' in Htok |- *.
      specialize (IH c' Hc' Htok). cbn [CdPattern.spaces_group] in IH.
      rewrite Hc' in IH. rewrite IH. reflexivity.
    + cbn [PyStr.lstrip] in Htok |- *. rewrite Hc' in Htok |- *.
      rewrite lazy_group_token by exact Htok. reflexivity.
Qed.

(** On a change-directory line the pattern is found at the start and
    captures the argument. *)
Lemma search_cd_line line a :
  cd_argument line = Some a -> CdPattern.search line = Some a.
Proof.
  unfold cd_argument. intros H.
  destruct line as [|c0 [|c1 [|c rest]]]; try discriminate;
    try (destruct c0 as [[] [] [] [] [] [] [] []]; discriminate);
    try (destruct c0 as [[] [] [] [] [] [] [] []]; try discriminate;
         destruct c1 as [[] [] [] [] [] [] [] []]; discriminate).
  destruct c0 as [[] [] [] [] [] [] [] []]; try discriminate.
  destruct c1 as [[] [] [] [] [] [] [] []]; try discriminate.
  destruct (PyStr.is_space c) eqn:Hc; [|discriminate].
  destruct (token (PyStr.lstrip rest)) eqn:Ht; [discriminate|].
  injection H as <-.
  cbn [CdPattern.search CdPattern.match_here].
  rewrite spaces_group_token; [rewrite Ht; reflexivity | exact Hc | congruence].
Qed.

(** The capture is never empty. *)
Lemma lazy_group_truthy t g : CdPattern.lazy_group t = Some g -> PyStr.truthy g = true.
Proof.
  destruct t as [|c t]; simpl; [discriminate|].
  destruct (PyStr.is_newline c); [discriminate|].
  destruct (CdPattern.terminator t).
  - intros [= <-]. reflexivity.
  - destruct (CdPattern.lazy_group t); simpl; [|discriminate].
    intros [= <-]. reflexivity.
Qed.

Lemma spaces_group_truthy t g : CdPattern.spaces_group t = Some g -> PyStr.truthy g = true.
Proof.
  induction t as [|c t IH]; simpl; [discriminate|].
  destruct (PyStr.is_space c); [|discriminate].
  destruct (CdPattern.spaces_group t) as [g'|].
  - intros [= <-]. apply IH. reflexivity.
  - apply lazy_group_truthy.
Qed.

Lemma search_truthy s g : CdPattern.search s = Some g -> PyStr.truthy g = true.
Proof.
  induction s as [|c s IH].
  - simpl. discriminate.
  - cbn [CdPattern.search].
    destruct (CdPattern.match_here (String c s)) as [g'|] eqn:E.
    + intros [= <-]. unfold CdPattern.match_here in E.
      destruct c as [[] [] [] [] [] [] [] []]; try discriminate.
      destruct s as [|c1 s]; [discriminate|].
      destruct c1 as [[] [] [] [] [] [] [] []]; try discriminate.
      eapply spaces_group_truthy; exact E.
    + exact IH.
Qed.

Lemma last_match_truthy lines : forall init wd,
  (forall w, init = Some w -> PyStr.truthy w = true) ->
  last_match lines init = Some wd -> PyStr.truthy wd = true.
Proof.
  induction lines as [|line lines IH]; intros init wd Hinit; simpl.
  - intros H. apply Hinit. exact H.
  - apply IH. destruct (CdPattern.search line) eqn:E.
    + intros w [= <-]. eapply search_truthy; exact E.
    + exact Hinit.
Qed.

Lemma scan_working_dir_truthy name content wd :
  working_dir (scan_script name content) = Some wd -> PyStr.truthy wd = true.
Proof.
  rewrite scan_script_closed. apply last_match_truthy. discriminate.
Qed.

Lemma analyze_working_dir_truthy e p content r wd :
  analyze_content e p content = Some r ->
  working_dir r = Some wd -> PyStr.truthy wd = true.
Proof.
  intros H. rewrite (analyze_working_dir _ _ _ _ H).
  apply last_match_truthy. discriminate.
Qed.

(** ** Lines, commands and the current command *)

Lemma script_lines_truthy content :
  Forall (fun line => PyStr.truthy line = true) (script_lines content).
Proof.
  unfold script_lines. apply Forall_forall. intros line Hin.
  apply in_map_iff in Hin. destruct Hin as [raw [<- Hraw]].
  apply filter_In in Hraw. destruct Hraw as [_ Hkeep].
  unfold keep_line in Hkeep. apply andb_true_iff in Hkeep. tauto.
Qed.

Lemma filter_is_command lines :
  Forall (fun line => PyStr.truthy line = true) lines ->
  filter is_command lines
  = filter (fun line => negb (PyStr.startswith "cd " line)) lines.
Proof.
  induction 1 as [|line lines Hline _ IH]; simpl; [reflexivity|].
  unfold is_command at 1. rewrite Hline, andb_true_r, IH. reflexivity.
Qed.

(** The commands are the lines that do not start with ["cd "], in the order
    of the file. *)
Lemma commands_keep_order e p content r :
  analyze_content e p content = Some r ->
  commands r
  = filter (fun line => negb (PyStr.startswith "cd " line)) (script_lines content).
Proof.
  intros H. rewrite (analyze_commands _ _ _ _ H).
  apply filter_is_command, script_lines_truthy.
Qed.

Lemma last_item_snoc l x : last_item (l ++ [x])%list = Some x.
Proof. unfold last_item. rewrite rev_app_distr. reflexivity. Qed.

Lemma last_some_snoc (l : list string) x :
  last (map Some (l ++ [x])%list) None = Some x.
Proof.
  induction l as [|y l IH]; [reflexivity|].
  cbn [app map]. destruct (l ++ [x])%list as [|z l'] eqn:E.
  - destruct l; discriminate E.
  - cbn [map] in IH |- *. exact IH.
Qed.

(** No command starts with [cd] and a space. *)
Lemma commands_skip_cd_space e p content r :
  analyze_content e p content = Some r ->
  Forall (fun line => PyStr.startswith "cd " line = false) (commands r).
Proof.
  intros Hr. rewrite (commands_keep_order _ _ _ _ Hr).
  apply Forall_forall. intros line Hin.
  apply filter_In in Hin. destruct Hin as [_ H].
  apply negb_true_iff in H. exact H.
Qed.

(** [current_command] is the last command, and [None] when there is none. *)
Lemma current_command_is_last e p content r :
  analyze_content e p content = Some r ->
  current_command r = last (map Some (commands r)) None.
Proof.
  intros Hr.
  rewrite (analyze_current_command _ _ _ _ Hr), (analyze_commands _ _ _ _ Hr).
  destruct (filter is_command (script_lines content)) as [|c cs] eqn:E using rev_ind;
    [reflexivity|].
  rewrite last_some_snoc. unfold current_of.
  rewrite last_item_snoc. destruct (cs ++ [c])%list eqn:E'; [|reflexivity].
  destruct cs; discriminate E'.
Qed.

(** When the pattern is found on change-directory lines only, the working
    directory is the argument of the last one. *)
Lemma last_match_on_cd_lines lines : forall init,
  Forall (fun line => cd_argument line = None -> CdPattern.search line = None) lines ->
  last_match lines init
  = fold_left (fun acc line =>
                 match cd_argument line with
                 | Some a => Some a
                 | None => acc
                 end) lines init.
Proof.
  induction lines as [|line lines IH]; intros init Hall; [reflexivity|].
  inversion Hall as [|? ? Hline Hrest]; subst. simpl.
  rewrite (IH _ Hrest). destruct (cd_argument line) as [a|] eqn:E.
  - rewrite (search_cd_line _ _ E). reflexivity.
  - rewrite (Hline eq_refl). reflexivity.
Qed.

Lemma working_dir_on_cd_lines e p content :
  Forall (fun line => cd_argument line = None -> CdPattern.search line = None)
         (script_lines content) ->
  forall r, analyze_content e p content = Some r ->
  working_dir r = last_cd_argument (script_lines content).
Proof.
  intros H r Hr. rewrite (analyze_working_dir _ _ _ _ Hr).
  apply last_match_on_cd_lines. exact H.
Qed.

(** ** The detector *)

Lemma detect_try_known e d t :
  detect_try e d = Some (Some t) -> In t known_types.
Proof.
  unfold detect_try, obind.
  destruct (read_text e _); [|discriminate].
  destruct (json_loads e _) as [pkg|]; [|discriminate].
  destruct (PyDict.get pkg "scripts") as [scripts|]; [|discriminate].
  destruct (PyDict.get pkg "dependencies") as [deps|]; [|discriminate].
  destruct (PyDict.unpack deps) as [d1|]; [|discriminate].
  destruct (PyDict.get pkg "devDependencies") as [dev|]; [|discriminate].
  destruct (PyDict.unpack dev) as [d2|]; [|discriminate].
  destruct (exists_or _ _) as [[|]|]; [intros [= <-]; simpl; tauto| |discriminate].
  destruct (PyDict.has_key "react-scripts" _); [intros [= <-]; simpl; tauto|].
  destruct (PyDict.has_key "@vue/cli-service" _); [intros [= <-]; simpl; tauto|].
  destruct (PyDict.py_in "build" scripts) as [[|]|]; try discriminate.
  intros [= <-]; simpl; tauto.
Qed.

Lemma detect_known e d t : detect_project_type e d = Some t -> In t known_types.
Proof.
  unfold detect_project_type, obind.
  destruct (path_exists e _) as [[|]|]; [| |discriminate].
  - destruct (detect_try e d) as [[t'|]|] eqn:E; intros [= <-]; [|simpl; tauto..].
    eapply detect_try_known; exact E.
  - intros [= <-]. simpl; tauto.
Qed.

(** Every type the detector can return offers ["npm run build"] exactly
    when its category is static. *)
Lemma known_static_build t :
  In t known_types ->
  (String.eqb (category t) "static" = true /\ build_command t = Some "npm run build")
  \/ (String.eqb (category t) "static" = false /\ build_command t = None).
Proof.
  simpl. intros [<-|[<-|[<-|[<-|[<-|[]]]]]]; simpl; auto.
Qed.

(** ** The recommendation *)

Lemma recommend_exists e d r wd pt :
  working_dir r = Some wd -> PyStr.truthy wd = true ->
  path_exists e (joinpath e d wd) = Some true ->
  detect_project_type e (joinpath e d wd) = Some pt ->
  recommend e d r
  = Some (set_recommended_command (set_project_type r (Some pt))
            (if PyStr.truthy_opt (build_command pt) then build_command pt
             else current_command r)).
Proof.
  intros Hwd Ht Hex Hpt. unfold recommend. rewrite Hwd, Ht, Hex. cbv zeta. simpl.
  rewrite Hpt. simpl. destruct (PyStr.truthy_opt _); reflexivity.
Qed.

Lemma recommend_missing e d r wd :
  working_dir r = Some wd ->
  path_exists e (joinpath e d wd) = Some false ->
  recommend e d r = Some r.
Proof.
  intros Hwd Hex. unfold recommend. rewrite Hwd, Hex.
  destruct (PyStr.truthy wd); reflexivity.
Qed.

Lemma recommend_unset e d r : working_dir r = None -> recommend e d r = Some r.
Proof. intros Hwd. unfold recommend. rewrite Hwd. reflexivity. Qed.

(** The last block raises exactly when an existence test that stands
    outside every [try] does. *)
Lemma recommend_raises e d r wd :
  working_dir r = Some wd -> PyStr.truthy wd = true ->
  (recommend e d r = None <->
   path_exists e (joinpath e d wd) = None
   \/ (path_exists e (joinpath e d wd) = Some true
       /\ path_exists e (joinpath e (joinpath e d wd) "package.json") = None)).
Proof.
  intros Hwd Ht. unfold recommend. rewrite Hwd, Ht. cbv zeta.
  unfold detect_project_type, obind.
  destruct (path_exists e (joinpath e d wd)) as [[|]|].
  - destruct (path_exists e (joinpath e (joinpath e d wd) "package.json")) as [[|]|].
    + destruct (detect_try e _) as [[t|]|];
        (destruct (PyStr.truthy_opt _); split;
         (discriminate || (intros [H|[_ H]]; discriminate H))).
    + destruct (PyStr.truthy_opt _); split;
        (discriminate || (intros [H|[_ H]]; discriminate H)).
    + split; [intros _; right; split; reflexivity | reflexivity].
  - split; [discriminate | intros [H|[H _]]; discriminate H].
  - split; [intros _; left; reflexivity | reflexivity].
Qed.

Lemma recommend_well_formed e d r r' :
  (forall wd, working_dir r = Some wd -> PyStr.truthy wd = true) ->
  project_type r = None -> recommended_command r = None ->
  recommend e d r = Some r' -> well_formed r'.
Proof.
  intros Hwf Hpt Hrec H. split.
  - intros wd. rewrite (recommend_working_dir _ _ _ _ H). apply Hwf.
  - destruct (working_dir r) as [wd|] eqn:Hwd.
    + pose proof (Hwf wd eq_refl) as Ht.
      destruct (path_exists e (joinpath e d wd)) as [[|]|] eqn:Hex.
      * destruct (detect_project_type e (joinpath e d wd)) as [pt|] eqn:Hd.
        -- rewrite (recommend_exists _ _ _ _ _ Hwd Ht Hex Hd) in H.
           injection H as <-.
           cbn [project_type set_recommended_command set_project_type
                recommended_command working_dir current_command].
           split; [exists wd; exact Hwd|].
           split; [eapply detect_known; exact Hd|reflexivity].
        -- unfold recommend in H. rewrite Hwd, Ht, Hex in H. simpl in H.
           rewrite Hd in H. discriminate H.
      * rewrite (recommend_missing _ _ _ _ Hwd Hex) in H. injection H as <-.
        rewrite Hpt. exact Hrec.
      * unfold recommend in H. rewrite Hwd, Ht, Hex in H. discriminate H.
    + rewrite (recommend_unset _ _ _ Hwd) in H. injection H as <-.
      rewrite Hpt. exact Hrec.
Qed.

Lemma analyze_content_well_formed e p content r :
  analyze_content e p content = Some r -> well_formed r.
Proof.
  rewrite analyze_content_closed. apply recommend_well_formed; try reflexivity.
  intros wd. simpl. apply last_match_truthy. discriminate.
Qed.

Lemma analyze_deploy_script_content e p r :
  analyze_deploy_script e p = Some r ->
  exists content, read_text e p = Some content /\ analyze_content e p content = Some r.
Proof.
  unfold analyze_deploy_script, obind.
  destruct (read_text e p) as [content|]; [|discriminate].
  intros H. exists content. split; [reflexivity|exact H].
Qed.

Lemma analyze_deploy_script_well_formed e p r :
  analyze_deploy_script e p = Some r -> well_formed r.
Proof.
  intros H. apply analyze_deploy_script_content in H.
  destruct H as [content [_ H]]. eapply analyze_content_well_formed; exact H.
Qed.

Lemma analyze_all_well_formed e paths : forall results,
  analyze_all e paths = Some results -> Forall well_formed results.
Proof.
  induction paths as [|p paths IH]; simpl; intros results.
  - intros [= <-]. constructor.
  - unfold obind. destruct (analyze_deploy_script e p) as [r|] eqn:Hr; [|discriminate].
    destruct (analyze_all e paths) as [rs|]; [|discriminate].
    intros [= <-]. constructor.
    + eapply analyze_deploy_script_well_formed; exact Hr.
    + apply IH. reflexivity.
Qed.

Lemma analyze_all_scripts e paths : forall results,
  analyze_all e paths = Some results ->
  map script results = map (basename e) paths.
Proof.
  induction paths as [|p paths IH]; simpl; intros results.
  - intros [= <-]. reflexivity.
  - unfold obind. destruct (analyze_deploy_script e p) as [r|] eqn:Hr; [|discriminate].
    destruct (analyze_all e paths) as [rs|]; [|discriminate].
    intros [= <-]. simpl. rewrite (IH rs eq_refl). f_equal.
    apply analyze_deploy_script_content in Hr. destruct Hr as [content [_ Hr]].
    rewrite analyze_content_closed in Hr.
    rewrite (recommend_script _ _ _ _ Hr). reflexivity.
Qed.

(** ** The deploy entries in closed form *)

Lemma entry_step_app acc r : entry_step acc r = (acc ++ entry_step [] r)%list.
Proof.
  unfold entry_step.
  destruct (working_dir r), (recommended_command r);
    try (rewrite app_nil_r; reflexivity).
  destruct (_ && _); [|rewrite app_nil_r; reflexivity].
  destruct (not_static r); [rewrite app_nil_r|]; reflexivity.
Qed.

Lemma entries_loop_closed results : forall acc,
  fold_left entry_step results acc = (acc ++ flat_map (entry_step []) results)%list.
Proof.
  induction results as [|r results IH]; intros acc; simpl.
  - rewrite app_nil_r. reflexivity.
  - rewrite IH, entry_step_app, <- app_assoc. reflexivity.
Qed.

Lemma deploy_commands_json_closed results :
  deploy_commands_json results = flat_map (entry_step []) results.
Proof. unfold deploy_commands_json. rewrite entries_loop_closed. reflexivity. Qed.

(** A result of the analysis yields one entry when its project is static and
    none otherwise. *)
Lemma entry_of_well_formed r :
  well_formed r ->
  (is_static r = true /\
   exists wd, working_dir r = Some wd /\
              recommended_command r = Some "npm run build" /\
              entry_step [] r
              = [{| dir := wd; command := "npm run build"; entry_type := frontend |}])
  \/ (is_static r = false /\ entry_step [] r = []).
Proof.
  intros [Hwd Hpt]. unfold is_static, entry_step, not_static.
  destruct (project_type r) as [pt|].
  - destruct Hpt as [[wd Hw] [Hknown Hrc]].
    destruct (known_static_build pt Hknown) as [[Hs Hb]|[Hs Hb]];
      rewrite Hb in Hrc; simpl in Hrc; rewrite Hs.
    + left. split; [reflexivity|]. exists wd. rewrite Hw, Hrc, (Hwd wd Hw).
      repeat split; reflexivity.
    + right. split; [reflexivity|]. rewrite Hw.
      destruct (recommended_command r); [|reflexivity].
      destruct (_ && _); reflexivity.
  - right. split; [reflexivity|]. rewrite Hpt.
    destruct (working_dir r); reflexivity.
Qed.

(** ** The generated script in closed form *)

Lemma script_step_app lines r : script_step lines r = (lines ++ script_step [] r)%list.
Proof.
  unfold script_step.
  destruct (working_dir r), (recommended_command r);
    try (rewrite app_nil_r; reflexivity).
  destruct (_ || _); [rewrite app_nil_r; reflexivity|].
  destruct (not_static r); [rewrite app_nil_r|]; reflexivity.
Qed.

Lemma script_loop_closed results : forall lines,
  fold_left script_step results lines = (lines ++ flat_map (script_step []) results)%list.
Proof.
  induction results as [|r results IH]; intros lines; simpl.
  - rewrite app_nil_r. reflexivity.
  - rewrite IH, script_step_app, <- app_assoc. reflexivity.
Qed.

Lemma shell_script_lines_closed d results :
  shell_script_lines d results
  = (script_header d ++ flat_map (script_step []) results)%list.
Proof. unfold shell_script_lines. apply script_loop_closed. Qed.

Lemma script_of_well_formed r :
  well_formed r ->
  (is_static r = true /\
   exists wd, working_dir r = Some wd /\
              script_step [] r = project_lines r wd "npm install && npm run build")
  \/ (is_static r = false /\ script_step [] r = []).
Proof.
  intros [Hwd Hpt]. unfold script_step. unfold is_static at 1 3, not_static.
  destruct (project_type r) as [pt|] eqn:Ept.
  - destruct Hpt as [[wd Hw] [Hknown Hrc]].
    destruct (known_static_build pt Hknown) as [[Hs Hb]|[Hs Hb]];
      rewrite Hb in Hrc; simpl in Hrc; rewrite Hs.
    + left. split; [reflexivity|]. exists wd. rewrite Hw, Hrc, (Hwd wd Hw).
      split; [reflexivity|]. simpl. unfold is_static. rewrite Ept, Hs. reflexivity.
    + right. split; [reflexivity|]. rewrite Hw.
      destruct (recommended_command r); [|reflexivity].
      destruct (_ || _); reflexivity.
  - right. split; [reflexivity|]. rewrite Hpt.
    destruct (working_dir r); reflexivity.
Qed.

(** ** The directories a generated script changes into *)







(** ** Runs of the subcommands *)

Lemma bind_effects {A B : Type} (m : M A) (f : A -> M B) :
  effects (bind m f)
  = (effects m ++ match returned m with
                  | Some a => effects (f a)
                  | None => []
                  end)%list.
Proof.
  destruct m as [out [a|]]; simpl.
  - destruct (f a); reflexivity.
  - rewrite app_nil_r. reflexivity.
Qed.

Lemma bind_returned {A B : Type} (m : M A) (f : A -> M B) :
  returned (bind m f)
  = match returned m with
    | Some a => returned (f a)
    | None => None
    end.
Proof.
  destruct m as [out [a|]]; simpl; [|reflexivity].
  destruct (f a); reflexivity.
Qed.

Lemma payloads_bind {A B : Type} (m : M A) (f : A -> M B) :
  payloads (bind m f)
  = (payloads m ++ match returned m with
                   | Some a => payloads (f a)
                   | None => []
                   end)%list.
Proof.
  unfold payloads, json_payloads. rewrite bind_effects, flat_map_app.
  destruct (returned m); reflexivity.
Qed.

Lemma quiet_print s : quiet (print s).
Proof. split; reflexivity. Qed.

Lemma quiet_ret : quiet (ret tt).
Proof. split; reflexivity. Qed.

Lemma quiet_seq m1 m2 : quiet m1 -> quiet m2 -> quiet (m1 ;;; m2).
Proof.
  intros [P1 R1] [P2 R2]. split.
  - rewrite payloads_bind, P1, R1, P2. reflexivity.
  - rewrite bind_returned, R1. exact R2.
Qed.

Lemma quiet_when b m : quiet m -> quiet (when b m).
Proof. destruct b; [trivial|intros _; apply quiet_ret]. Qed.

Lemma quiet_for_each {A : Type} (l : list A) (body : A -> M unit) :
  (forall x, quiet (body x)) -> quiet (for_each l body).
Proof.
  intros H. induction l as [|x l IH]; cbn [for_each]; [apply quiet_ret|].
  apply quiet_seq; [apply H|exact IH].
Qed.

Ltac quiet_steps :=
  repeat first
    [ apply quiet_seq | apply quiet_print | apply quiet_ret | apply quiet_when
    | assumption ].

Lemma quiet_print_numbered cmds : forall i, quiet (print_numbered i cmds).
Proof.
  induction cmds as [|c cmds IH]; intros i; cbn [print_numbered]; quiet_steps.
  apply IH.
Qed.

Lemma quiet_report_result r : quiet (report_result r).
Proof.
  unfold report_result. quiet_steps.
  - destruct (working_dir r); quiet_steps.
  - destruct (project_type r); quiet_steps.
  - destruct (commands r); quiet_steps. apply quiet_print_numbered.
  - destruct (current_command r); quiet_steps.
  - destruct (recommended_command r) as [rc|]; quiet_steps.
    destruct (PyStr.truthy rc); quiet_steps.
    destruct (current_command r); quiet_steps.
Qed.

Lemma quiet_summary_line r : quiet (summary_line r).
Proof.
  unfold summary_line. destruct (recommended_command r); quiet_steps.
Qed.

Lemma quiet_type_statistics results : quiet (type_statistics results).
Proof.
  unfold type_statistics. destruct (project_types results); quiet_steps.
  apply quiet_for_each. intros x. apply quiet_print.
Qed.

Lemma bind_try_some {A B : Type} (a : A) (f : A -> M B) :
  bind (try_call (Some a)) f = f a.
Proof. unfold bind, try_call. destruct (f a); reflexivity. Qed.

Lemma bind_try_none {A B : Type} (f : A -> M B) :
  bind (try_call None) f = ([], None).
Proof. reflexivity. Qed.

(** The first loop of [infer_deploy_commands] collects what [analyze_all]
    collects, and prints text only. *)
Lemma analyze_and_report_run e paths : forall acc,
  payloads (analyze_and_report e paths acc) = [] /\
  returned (analyze_and_report e paths acc)
  = option_map (app acc) (analyze_all e paths).
Proof.
  induction paths as [|p paths IH]; intros acc; cbn [analyze_and_report analyze_all].
  - simpl. rewrite app_nil_r. split; reflexivity.
  - destruct (analyze_deploy_script e p) as [r|];
      [rewrite bind_try_some|rewrite bind_try_none; split; reflexivity].
    destruct (quiet_report_result r) as [P R].
    destruct (IH (acc ++ [r])%list) as [P' R'].
    rewrite payloads_bind, bind_returned, P, R, P', R'.
    split; [reflexivity|]. unfold obind.
    destruct (analyze_all e paths); simpl; [|reflexivity].
    rewrite <- app_assoc. reflexivity.
Qed.

Lemma payloads_quiet_seq {B : Type} (m1 : M unit) (m2 : M B) :
  quiet m1 -> payloads (m1 ;;; m2) = payloads m2.
Proof. intros [P R]. rewrite payloads_bind, P, R. reflexivity. Qed.

Lemma returned_quiet_seq {B : Type} (m1 : M unit) (m2 : M B) :
  quiet m1 -> returned (m1 ;;; m2) = returned m2.
Proof. intros [_ R]. rewrite bind_returned, R. reflexivity. Qed.


Lemma generate_shell_script_run e target_dir output_path results :
  path_exists e (resolve e target_dir) = Some true ->
  glob e (resolve e target_dir) deploy_glob <> [] ->
  analyze_all e (sorted e (glob e (resolve e target_dir) deploy_glob)) = Some results ->
  generate_shell_script e target_dir output_path
  = write_script e output_path
      (PyStr.join_nl (shell_script_lines (resolve e target_dir) results)).
Proof.
  intros Hex Hglob Hres. unfold generate_shell_script. rewrite Hex, bind_try_some.
  simpl negb. cbv iota.
  destruct (glob e (resolve e target_dir) deploy_glob) as [|s ss] eqn:E;
    [contradiction|].
  rewrite Hres, bind_try_some. reflexivity.
Qed.

Lemma infer_deploy_commands_run e target_dir :
  (payloads (infer_deploy_commands e (Some target_dir)),
   returned (infer_deploy_commands e (Some target_dir)))
  = analyze_outcome e target_dir.
Proof.
  unfold infer_deploy_commands, analyze_outcome.
  destruct (path_exists e (resolve e target_dir)) as [[|]|];
    [rewrite bind_try_some; simpl negb; cbv iota | reflexivity | reflexivity].
  destruct (glob e (resolve e target_dir) deploy_glob) as [|s ss]; [reflexivity|].
  set (paths := sorted e (s :: ss)).
  rewrite !payloads_quiet_seq, !returned_quiet_seq by apply quiet_print.
  rewrite payloads_bind, bind_returned.
  destruct (analyze_and_report_run e paths []) as [-> ->].
  destruct (analyze_all e paths) as [results|]; simpl option_map; cbv iota;
    [|reflexivity].
  rewrite !payloads_quiet_seq, !returned_quiet_seq
    by first [apply quiet_print | apply quiet_type_statistics
             | apply quiet_for_each; apply quiet_summary_line].
  unfold dump_json.
  destruct (writable e (joinpath e (resolve e target_dir) "deploy_commands.json"));
    reflexivity.
Qed.

Lemma entries_frontend results :
  Forall (fun d => entry_type d = frontend) (deploy_commands_json results).
Proof.
  rewrite deploy_commands_json_closed. apply Forall_flat_map.
  apply Forall_forall. intros r _. unfold entry_step.
  destruct (working_dir r), (recommended_command r); try constructor.
  destruct (_ && _); [|constructor].
  destruct (not_static r); repeat constructor.
Qed.

(** ** The classification rules *)

Lemma lookup_set k k' v d :
  PyDict.lookup k (PyDict.set k' v d)
  = if String.eqb k k' then Some v else PyDict.lookup k d.
Proof.
  induction d as [|[k0 v0] d IH]; simpl.
  - destruct (String.eqb k k'); reflexivity.
  - destruct (String.eqb k' k0) eqn:E; simpl.
    + apply String.eqb_eq in E. subst k0.
      destruct (String.eqb k k'); reflexivity.
    + destruct (String.eqb k k0) eqn:E0.
      * apply String.eqb_eq in E0. subst k0.
        rewrite String.eqb_sym, E. reflexivity.
      * exact IH.
Qed.

Lemma has_key_set k k' v d :
  PyDict.has_key k (PyDict.set k' v d) = String.eqb k k' || PyDict.has_key k d.
Proof.
  unfold PyDict.has_key. rewrite lookup_set.
  destruct (String.eqb k k'); reflexivity.
Qed.

(** A key is in [{**a, **b}] when it is in [a] or in [b]. *)
Lemma has_key_merge k b : forall a,
  PyDict.has_key k (PyDict.merge a b) = PyDict.has_key k a || PyDict.has_key k b.
Proof.
  unfold PyDict.merge.
  induction b as [|[k' v'] b IH]; intros a; simpl.
  - rewrite orb_false_r. reflexivity.
  - rewrite IH, has_key_set. unfold PyDict.has_key at 4. simpl.
    destruct (String.eqb k k'); simpl.
    + rewrite !orb_true_r. reflexivity.
    + reflexivity.
Qed.

Lemma member_or_empty_mapping k members m :
  mapping_member k members = Some m -> member_or_empty k members = JObject m.
Proof.
  unfold mapping_member, member_or_empty.
  destruct (PyDict.lookup k members) as [[]|]; try discriminate;
    intros [= <-]; reflexivity.
Qed.

Lemma get_mapping k members m :
  mapping_member k members = Some m ->
  exists v, PyDict.get (JObject members) k = Some v /\ PyDict.unpack v = Some m.
Proof.
  unfold mapping_member, PyDict.get.
  destruct (PyDict.lookup k members) as [[]|]; try discriminate;
    intros [= <-]; eexists; split; reflexivity.
Qed.

(** The body of the [try] on a manifest that is an object with mappings for
    dependencies. *)
Lemma detect_try_object e d text members deps dev_deps vite :
  read_text e (joinpath e d "package.json") = Some text ->
  json_loads e text = Some (JObject members) ->
  mapping_member "dependencies" members = Some deps ->
  mapping_member "devDependencies" members = Some dev_deps ->
  exists_or (path_exists e (joinpath e d "vite.config.ts"))
            (path_exists e (joinpath e d "vite.config.js")) = Some vite ->
  detect_try e d
  = if vite then Some (Some vite_type)
    else if PyDict.has_key "react-scripts" deps
            || PyDict.has_key "react-scripts" dev_deps then Some (Some cra_type)
    else if PyDict.has_key "@vue/cli-service" deps
            || PyDict.has_key "@vue/cli-service" dev_deps then Some (Some vue_cli_type)
    else match PyDict.py_in "build" (member_or_empty "scripts" members) with
         | Some true => Some (Some frontend_type)
         | Some false => Some None
         | None => None
         end.
Proof.
  intros Hread Hload Hdeps Hdev Hor.
  unfold detect_try, obind. rewrite Hread, Hload.
  destruct (get_mapping _ _ _ Hdeps) as [v1 [-> ->]].
  destruct (get_mapping _ _ _ Hdev) as [v2 [-> ->]].
  rewrite Hor.
  assert (Hs : PyDict.get (JObject members) "scripts"
               = Some (member_or_empty "scripts" members)).
  { unfold PyDict.get, member_or_empty.
    destruct (PyDict.lookup "scripts" members); reflexivity. }
  rewrite Hs, !has_key_merge.
  destruct vite; [reflexivity|].
  destruct (PyDict.has_key "react-scripts" deps
            || PyDict.has_key "react-scripts" dev_deps); [reflexivity|].
  destruct (PyDict.has_key "@vue/cli-service" deps
            || PyDict.has_key "@vue/cli-service" dev_deps); [reflexivity|].
  destruct (PyDict.py_in "build" _) as [[|]|]; reflexivity.
Qed.

(** ** Further facts about the runs and the generated text *)

Lemma detect_unusable e d :
  manifest_unusable e d -> detect_project_type e d = Some unknown_type.
Proof.
  unfold detect_project_type, detect_try, obind.
  intros [H|[H [H1|[text [H1 H2]]]]]; rewrite H.
  - reflexivity.
  - rewrite H1. reflexivity.
  - rewrite H1, H2. reflexivity.
Qed.

(** The analysis of a text raises only when an existence test on the
    directory the text names, or on its manifest, does. *)
Lemma analyze_content_raises e p content :
  analyze_content e p content = None ->
  exists wd,
    last_match (script_lines content) None = Some wd
    /\ (path_exists e (joinpath e (parent e p) wd) = None
        \/ (path_exists e (joinpath e (parent e p) wd) = Some true
            /\ path_exists e (joinpath e (joinpath e (parent e p) wd) "package.json")
               = None)).
Proof.
  rewrite analyze_content_closed.
  set (r0 := parsed_result (basename e p) (script_lines content)).
  destruct (working_dir r0) as [wd|] eqn:Hwd.
  - assert (Ht : PyStr.truthy wd = true).
    { eapply last_match_truthy; [|exact Hwd]. discriminate. }
    intros H. exists wd. split; [exact Hwd|].
    apply (recommend_raises e (parent e p) r0 wd Hwd Ht). exact H.
  - rewrite (recommend_unset _ _ _ Hwd). discriminate.
Qed.

Lemma insert_sorted_permutation e x l : Permutation (insert_sorted e x l) (x :: l).
Proof.
  induction l as [|y l IH]; simpl; [apply Permutation_refl|].
  destruct (path_lt e y x).
  - eapply perm_trans; [apply perm_skip, IH|apply perm_swap].
  - apply Permutation_refl.
Qed.

Lemma sorted_permutation e l : Permutation (sorted e l) l.
Proof.
  induction l as [|x l IH]; simpl; [apply Permutation_refl|].
  eapply perm_trans; [apply insert_sorted_permutation|apply perm_skip, IH].
Qed.

Lemma entries_json_frontend results :
  frontend_document (entries_json (deploy_commands_json results)).
Proof.
  right. exists (map entry_json (deploy_commands_json results)).
  split; [reflexivity|]. apply Forall_forall. intros item Hin.
  apply in_map_iff in Hin. destruct Hin as [d [<- Hd]].
  pose proof (entries_frontend results) as H.
  rewrite Forall_forall in H. specialize (H d Hd).
  exists (dir d), (command d). unfold entry_json. rewrite H. reflexivity.
Qed.

Lemma payloads_main_analyze e target_dir :
  payloads (main e (Analyze target_dir)) = fst (analyze_outcome e target_dir).
Proof.
  cbn [main]. rewrite payloads_bind.
  pose proof (infer_deploy_commands_run e target_dir) as H.
  rewrite <- H. cbn [fst].
  destruct (returned _); simpl; rewrite app_nil_r; reflexivity.
Qed.



























(** ** The error paths when the existence tests answer *)

(** A manifest that is absent, unreadable or not JSON, in a directory whose
    existence tests answer: the script keeps its current command. *)
Lemma unusable_manifest_falls_back e script_path r wd :
  analyze_deploy_script e script_path = Some r ->
  working_dir r = Some wd ->
  path_exists e (joinpath e (parent e script_path) wd) = Some true ->
  manifest_unusable e (joinpath e (parent e script_path) wd) ->
  project_type r = Some unknown_type
  /\ recommended_command r = current_command r.
Proof.
  intros Hr Hwd Hex Hbad. pose proof (detect_unusable _ _ Hbad) as Hdet.
  apply analyze_deploy_script_content in Hr. destruct Hr as [content [_ Hr]].
  pose proof (analyze_working_dir_truthy _ _ _ _ _ Hr Hwd) as Ht.
  rewrite analyze_content_closed in Hr.
  rewrite (recommend_working_dir _ _ _ _ Hr) in Hwd.
  rewrite (recommend_exists _ _ _ _ _ Hwd Ht Hex Hdet) in Hr. injection Hr as <-.
  split; reflexivity.
Qed.

(** The json subcommand on a directory the existence test answers for. *)
Lemma json_error_object e target_dir msg :
  (path_exists e (resolve e target_dir) = Some false
   /\ msg = "目录不存在: " ++ resolve e target_dir)
  \/ (path_exists e (resolve e target_dir) = Some true
      /\ glob e (resolve e target_dir) deploy_glob = []
      /\ msg = "在 " ++ resolve e target_dir
                     ++ " 目录下未找到 deploy_server_*.sh 脚本") ->
  main e (Json target_dir)
  = ([PrintJson (JObject [("error", JString msg)]) None], Some tt).
Proof.
  intros H. cbn [main]. unfold output_json_only.
  destruct H as [[Hex ->]|[Hex [Hglob ->]]]; rewrite Hex, bind_try_some;
    simpl negb; cbv iota; [|rewrite Hglob]; reflexivity.
Qed.

(** The json subcommand ends with an exception, nothing printed, when the
    existence test on the target directory raises. *)
Lemma json_raises e target_dir :
  path_exists e (resolve e target_dir) = None ->
  main e (Json target_dir) = ([], None).
Proof.
  intros Hex. cbn [main]. unfold output_json_only. rewrite Hex. reflexivity.
Qed.

(** The detector raises exactly when the existence test on the manifest
    does. *)
Lemma detect_raises e d :
  detect_project_type e d = None
  <-> path_exists e (joinpath e d "package.json") = None.
Proof.
  unfold detect_project_type, obind.
  destruct (path_exists e (joinpath e d "package.json")) as [[|]|].
  - destruct (detect_try e d) as [[t|]|]; split; discriminate.
  - split; discriminate.
  - split; reflexivity.
Qed.

(** * The properties of the specification *)

(** ** C1: the working directory *)

(** C1 (evaluation at the failing input).  The script
    [cd app/frontend] / [./run-cd staging] has one change-directory line,
    whose argument is [app/frontend]; the second line does not start with
    the keyword.  The analysis finds the pattern inside [./run-cd staging]
    and leaves [staging] in [working_dir]: after the two loops, in every
    result the analysis returns, and in the result it returns under [/srv].
    It returns no result only when an existence test on [staging] raises. *)
Theorem working_dir_taken_from_inner_match (e : Env) (p : path) :
  let content := "cd app/frontend" ++ nl ++ "./run-cd staging" ++ nl in
  script_lines content = ["cd app/frontend"; "./run-cd staging"]
  /\ map cd_argument (script_lines content) = [Some "app/frontend"; None]
  /\ last_cd_argument (script_lines content) = Some "app/frontend"
  /\ working_dir (scan_script (basename e p) content) = Some "staging"
  /\ match analyze_content e p content with
     | Some r => working_dir r = Some "staging"
     | None =>
         path_exists e (joinpath e (parent e p) "staging") = None
         \/ (path_exists e (joinpath e (parent e p) "staging") = Some true
             /\ path_exists e (joinpath e (joinpath e (parent e p) "staging")
                                  "package.json") = None)
     end
  /\ analyze_content Fixture.srv_env "/srv/deploy_server_web.sh" content
     = Some {| script := "deploy_server_web.sh";
               working_dir := Some "staging";
               commands := ["./run-cd staging"];
               current_command := Some "./run-cd staging";
               project_type := None;
               recommended_command := None |}.
Proof.
  cbv zeta. repeat split; try reflexivity.
  destruct (analyze_content e p _) as [r|] eqn:E.
  - rewrite (analyze_working_dir _ _ _ _ E). reflexivity.
  - apply analyze_content_raises in E. destruct E as [wd [Hwd H]].
    vm_compute in Hwd. injection Hwd as <-. exact H.
Qed.

(** ** C2: the recommended command *)

(** C2.  In every result of the analysis, a recommended command that is
    present comes with a project type, and it is the build command of that
    type when the type has one, the current command otherwise. *)
Theorem recommended_command_rule (e : Env) (script_path : path)
  (r : AnalysisResult) (rc : string) :
  analyze_deploy_script e script_path = Some r ->
  recommended_command r = Some rc ->
  exists pt,
    project_type r = Some pt /\
    recommended_command r
    = (if PyStr.truthy_opt (build_command pt) then build_command pt
       else current_command r).
Proof.
  intros Hr Hrc. apply analyze_deploy_script_well_formed in Hr.
  destruct Hr as [_ Hpt]. destruct (project_type r) as [pt|].
  - exists pt. split; [reflexivity|]. apply Hpt.
  - congruence.
Qed.

Lemma recommended_command_rule_witness :
  exists pt,
    Some vite_type = Some pt /\
    Some "npm run build"
    = (if PyStr.truthy_opt (build_command pt) then build_command pt
       else Some "npm run dev").
Proof.
  exact (recommended_command_rule Fixture.srv_env "/srv/deploy_server_web.sh"
           {| script := "deploy_server_web.sh";
              working_dir := Some "app/frontend";
              commands := ["npm run dev"];
              current_command := Some "npm run dev";
              project_type := Some vite_type;
              recommended_command := Some "npm run build" |}
           "npm run build" eq_refl eq_refl).
Defined.

(** ** C3: the commands *)

(** C3 (evaluation at the failing input).  In the script
    [cd<TAB>app/frontend] / [npm run dev] the first line is a
    change-directory line, and the analysis takes [working_dir] from it; the
    loop that collects the commands tests for [cd] and a space only, so the
    line is kept as a command: after the two loops, in every result the
    analysis returns, and in the result it returns under [/srv].  It returns
    no result only when an existence test on the directory raises. *)
Theorem tab_cd_line_kept_in_commands (e : Env) (p : path) :
  let cd := "cd" ++ tab ++ "app/frontend" in
  let content := cd ++ nl ++ "npm run dev" in
  is_cd_line cd = true
  /\ working_dir (scan_script (basename e p) content) = Some "app/frontend"
  /\ commands (scan_script (basename e p) content) = [cd; "npm run dev"]
  /\ match analyze_content e p content with
     | Some r => working_dir r = Some "app/frontend"
                 /\ commands r = [cd; "npm run dev"]
     | None =>
         path_exists e (joinpath e (parent e p) "app/frontend") = None
         \/ (path_exists e (joinpath e (parent e p) "app/frontend") = Some true
             /\ path_exists e (joinpath e (joinpath e (parent e p) "app/frontend")
                                  "package.json") = None)
     end
  /\ analyze_content Fixture.srv_env "/srv/deploy_server_web.sh" content
     = Some {| script := "deploy_server_web.sh";
               working_dir := Some "app/frontend";
               commands := [cd; "npm run dev"];
               current_command := Some "npm run dev";
               project_type := Some vite_type;
               recommended_command := Some "npm run build" |}.
Proof.
  cbv zeta. repeat split; try reflexivity.
  destruct (analyze_content e p _) as [r|] eqn:E.
  - rewrite (analyze_working_dir _ _ _ _ E), (analyze_commands _ _ _ _ E).
    split; reflexivity.
  - apply analyze_content_raises in E. destruct E as [wd [Hwd H]].
    vm_compute in Hwd. injection Hwd as <-. exact H.
Qed.

(** ** C4: the priority of the classification rules *)

(** C4 (as stated, refuted).  In [/work/site] the manifest is present and
    parses, to an object whose [dependencies] member is [null]; the bundler
    configuration file is there; the detector returns the unknown type. *)
Lemma bundler_rule_unconditional_fails :
  path_exists Fixture.work_env "/work/site/package.json" = Some true
  /\ read_text Fixture.work_env "/work/site/package.json"
     = Some Fixture.manifest_null_deps
  /\ json_loads Fixture.work_env Fixture.manifest_null_deps
     = Some (JObject [("dependencies", JNull)])
  /\ path_exists Fixture.work_env "/work/site/vite.config.ts" = Some true
  /\ detect_project_type Fixture.work_env "/work/site" = Some unknown_type
  /\ ~ bundler_rule_unconditional.
Proof.
  repeat split; try reflexivity.
  intros H.
  specialize (H Fixture.work_env "/work/site" Fixture.manifest_null_deps
                (JObject [("dependencies", JNull)]) eq_refl eq_refl eq_refl eq_refl).
  vm_compute in H. discriminate H.
Qed.

(** C4 (amended).  The manifest is present and parses to an object whose
    [dependencies] and [devDependencies] members, where present, are
    objects, and the tests for the bundler configuration files answer, with
    [vite] saying whether one of the two files exists.  Then with a bundler
    configuration file the result is the bundler type, whatever the
    dependencies and the scripts are; and when the [scripts] member, where
    present, is an object, the detector returns the type of the first rule
    that applies, in the order bundler configuration, [react-scripts],
    [@vue/cli-service], a [build] entry among the scripts, and the unknown
    type when none applies. *)
Theorem classification_priority (e : Env) (d : path) (text : string)
  (members deps dev_deps : PyDict.dict) (vite : bool) :
  path_exists e (joinpath e d "package.json") = Some true ->
  read_text e (joinpath e d "package.json") = Some text ->
  json_loads e text = Some (JObject members) ->
  mapping_member "dependencies" members = Some deps ->
  mapping_member "devDependencies" members = Some dev_deps ->
  (path_exists e (joinpath e d "vite.config.ts") = Some true /\ vite = true)
  \/ (path_exists e (joinpath e d "vite.config.ts") = Some false
      /\ path_exists e (joinpath e d "vite.config.js") = Some vite) ->
  (vite = true ->
   detect_project_type e d = Some vite_type
   /\ category vite_type = "static"
   /\ build_command vite_type = Some "npm run build")
  /\ (forall scripts,
        mapping_member "scripts" members = Some scripts ->
        detect_project_type e d
        = Some (first_match (classification_rules vite deps dev_deps scripts))).
Proof.
  intros Hex Hread Hload Hdeps Hdev Hvite.
  assert (Hor : exists_or (path_exists e (joinpath e d "vite.config.ts"))
                          (path_exists e (joinpath e d "vite.config.js"))
                = Some vite).
  { destruct Hvite as [[-> ->]|[-> ->]]; reflexivity. }
  pose proof (detect_try_object e d text members deps dev_deps vite
                Hread Hload Hdeps Hdev Hor) as Htry.
  split.
  - intros ->. unfold detect_project_type, obind. rewrite Hex, Htry.
    repeat split; reflexivity.
  - intros scripts Hscripts.
    unfold detect_project_type, obind. rewrite Hex, Htry.
    rewrite (member_or_empty_mapping _ _ _ Hscripts).
    unfold first_match, classification_rules. cbn [find fst snd PyDict.py_in].
    destruct vite; [reflexivity|].
    destruct (PyDict.has_key "react-scripts" deps
              || PyDict.has_key "react-scripts" dev_deps); [reflexivity|].
    destruct (PyDict.has_key "@vue/cli-service" deps
              || PyDict.has_key "@vue/cli-service" dev_deps); [reflexivity|].
    destruct (PyDict.has_key "build" scripts); reflexivity.
Qed.

Lemma classification_priority_witness :
  detect_project_type Fixture.srv_env "/srv/app/frontend" = Some vite_type
  /\ detect_project_type Fixture.srv_env "/srv/app/frontend"
     = Some (first_match
               (classification_rules true [] [] [("build", JString "vite build")])).
Proof.
  pose proof (classification_priority Fixture.srv_env "/srv/app/frontend"
                Fixture.manifest_build
                [("scripts", JObject [("build", JString "vite build")])] [] [] true
                eq_refl eq_refl eq_refl eq_refl eq_refl
                (or_introl (conj eq_refl eq_refl))) as H.
  split.
  - exact (proj1 (proj1 H eq_refl)).
  - exact (proj2 H [("build", JString "vite build")] eq_refl).
Defined.

(** ** C5: a manifest that cannot be used *)

(** C5 (evaluation at the failing input).  The project directory
    [/vault/app] may not be searched, so its manifest is unreadable: it
    cannot be opened, and the existence test on it, which stands before the
    [try] of the detector, raises.  The exception leaves the detector and
    the analysis of the script that names the directory, and the run of the
    json subcommand ends with it, nothing printed.  A manifest that is
    there and holds no JSON, as in [/srv/bad], gives the unknown type and
    leaves the current command as the recommended one. *)
Theorem unsearchable_project_directory_raises :
  read_text vault_env "/vault/app/package.json" = None
  /\ path_exists vault_env "/vault/app" = Some true
  /\ path_exists vault_env "/vault/app/package.json" = None
  /\ detect_project_type vault_env "/vault/app" = None
  /\ analyze_deploy_script vault_env "/vault/deploy_server_app.sh" = None
  /\ main vault_env (Json "/vault") = ([], None)
  /\ detect_project_type Fixture.srv_env "/srv/bad" = Some unknown_type
  /\ analyze_deploy_script Fixture.srv_env "/srv/deploy_server_bad.sh"
     = Some {| script := "deploy_server_bad.sh";
               working_dir := Some "bad";
               commands := ["npm run serve"];
               current_command := Some "npm run serve";
               project_type := Some unknown_type;
               recommended_command := Some "npm run serve" |}.
Proof. repeat split; reflexivity. Qed.

(** ** C6: the entries are the static results *)



(** ** C7: the script and the JSON array name the same directories *)




(** ** C8: the error object of the json subcommand *)

(** C8 (evaluation at the failing input).  The target directory
    [/srv/aaa...a], with a last component of 300 characters, does not
    exist; the existence test on it raises, because the name is too long,
    and the run of the json subcommand ends with that exception, nothing
    printed.  On a missing directory the test answers for, and on a
    directory with no deploy script, the subcommand prints the error
    object. *)
Theorem json_on_overlong_directory_raises :
  let target := "/srv/" ++ long_name in
  String.length long_name = 300
  /\ Fixture.fx_exists Fixture.srv target = false
  /\ path_exists limits_env (resolve limits_env target) = None
  /\ main limits_env (Json target) = ([], None)
  /\ main limits_env (Json "/nowhere")
     = ([PrintJson (JObject [("error", JString "目录不存在: /nowhere")]) None],
        Some tt)
  /\ main limits_env (Json "/srv/api")
     = ([PrintJson
           (JObject [("error",
                      JString "在 /srv/api 目录下未找到 deploy_server_*.sh 脚本")])
           None], Some tt).
Proof. cbv zeta. repeat split; vm_compute; reflexivity. Qed.

(** ** C9: a working directory that does not exist *)

(** C9.  When the analysis of a script returns a result and the existence
    test on the directory the result's [working_dir] names answers that it
    is not there, the result has neither project type nor recommended
    command, and leaving the result out changes neither the JSON array nor
    the generated script: the script contributes nothing to them. *)
Theorem missing_directory_contributes_nothing (e : Env) (script_path : path)
  (r : AnalysisResult) (wd : string) :
  analyze_deploy_script e script_path = Some r ->
  working_dir r = Some wd ->
  path_exists e (joinpath e (parent e script_path) wd) = Some false ->
  project_type r = None
  /\ recommended_command r = None
  /\ (forall before after,
        deploy_commands_json (before ++ r :: after)
        = deploy_commands_json (before ++ after))
  /\ (forall base before after,
        shell_script_lines base (before ++ r :: after)
        = shell_script_lines base (before ++ after)).
Proof.
  intros Hr Hwd Hex.
  apply analyze_deploy_script_content in Hr. destruct Hr as [content [_ Hr]].
  assert (Hpt : project_type r = None /\ recommended_command r = None).
  { rewrite analyze_content_closed in Hr.
    rewrite (recommend_working_dir _ _ _ _ Hr) in Hwd.
    rewrite (recommend_missing _ _ _ _ Hwd Hex) in Hr. injection Hr as <-.
    split; reflexivity. }
  destruct Hpt as [Hp Hrc]. repeat split; try assumption.
  - intros before after. rewrite !deploy_commands_json_closed, !flat_map_app.
    cbn [flat_map]. unfold entry_step at 2. rewrite Hrc.
    destruct (working_dir _); reflexivity.
  - intros base before after. rewrite !shell_script_lines_closed, !flat_map_app.
    cbn [flat_map]. unfold script_step at 2. rewrite Hrc.
    destruct (working_dir _); reflexivity.
Qed.

Lemma missing_directory_contributes_nothing_witness :
  let r := {| script := "deploy_server_old.sh";
              working_dir := Some "gone";
              commands := ["npm start"];
              current_command := Some "npm start";
              project_type := None;
              recommended_command := None |} in
  project_type r = None
  /\ recommended_command r = None
  /\ (forall before after,
        deploy_commands_json (before ++ r :: after)
        = deploy_commands_json (before ++ after))
  /\ (forall base before after,
        shell_script_lines base (before ++ r :: after)
        = shell_script_lines base (before ++ after)).
Proof.
  exact (missing_directory_contributes_nothing Fixture.srv_env
           "/srv/deploy_server_old.sh" _ "gone" eq_refl eq_refl eq_refl).
Defined.

(** ** C10: the type of every entry *)

(** C10.  Every JSON document the json and analyze subcommands print or
    write is the error object or an array whose elements all have the
    [type] member ["frontend"], whatever kind of project was detected. *)
Theorem entries_typed_frontend (e : Env) (target_dir : string) :
  Forall frontend_document (payloads (main e (Json target_dir)))
  /\ Forall frontend_document (payloads (main e (Analyze target_dir))).
Proof.
  assert (Herr : forall msg, Forall frontend_document [error_json msg]).
  { intros msg. constructor; [|constructor]. left. exists msg. reflexivity. }
  split.
  - cbn [main]. unfold output_json_only.
    destruct (path_exists e (resolve e target_dir)) as [[|]|];
      [rewrite bind_try_some; simpl negb; cbv iota
      |rewrite bind_try_some; apply Herr
      |rewrite bind_try_none; constructor].
    destruct (glob e (resolve e target_dir) deploy_glob) as [|s ss].
    + apply Herr.
    + destruct (analyze_all e (sorted e (s :: ss))) as [results|].
      * rewrite bind_try_some.
        constructor; [apply entries_json_frontend|constructor].
      * rewrite bind_try_none. constructor.
  - rewrite payloads_main_analyze. unfold analyze_outcome.
    destruct (path_exists e (resolve e target_dir)) as [[|]|]; [|constructor..].
    destruct (glob e (resolve e target_dir) deploy_glob) as [|s ss]; [constructor|].
    destruct (analyze_all e (sorted e (s :: ss))) as [results|]; [|constructor].
    destruct (writable e _); cbn [fst]; [|constructor].
    constructor; [apply entries_json_frontend|].
    constructor; [apply entries_json_frontend|constructor].
Qed.

(** * Further properties of the code *)

(** ** Stripped lines *)

Lemma rstrip_idem s : PyStr.rstrip (PyStr.rstrip s) = PyStr.rstrip s.
Proof.
  induction s as [|c s IH]; [reflexivity|].
  cbn [PyStr.rstrip]. destruct (PyStr.rstrip s) as [|c' r] eqn:E.
  - destruct (PyStr.is_space c) eqn:Hc; [reflexivity|].
    cbn [PyStr.rstrip]. rewrite Hc. reflexivity.
  - cbn [PyStr.rstrip]. cbn [PyStr.rstrip] in IH.
    destruct (PyStr.rstrip r) as [|c'' r'] eqn:E'.
    + destruct (PyStr.is_space c'); [discriminate IH|]. rewrite IH. reflexivity.
    + rewrite IH. reflexivity.
Qed.

Lemma rstrip_fixed_tail c s :
  PyStr.rstrip (String c s) = String c s -> PyStr.rstrip s = s.
Proof.
  cbn [PyStr.rstrip]. destruct (PyStr.rstrip s) as [|c' r].
  - destruct (PyStr.is_space c); [discriminate|]. intros [= <-]. reflexivity.
  - intros [= <-]. reflexivity.
Qed.

Lemma lstrip_empty_rstrip s : PyStr.lstrip s = EmptyString -> PyStr.rstrip s = EmptyString.
Proof.
  induction s as [|c s IH]; [reflexivity|].
  cbn [PyStr.lstrip PyStr.rstrip]. destruct (PyStr.is_space c); [|discriminate].
  intros H. rewrite (IH H). reflexivity.
Qed.

Lemma lstrip_head s c r : PyStr.lstrip s = String c r -> PyStr.is_space c = false.
Proof.
  induction s as [|c0 s IH]; [discriminate|].
  cbn [PyStr.lstrip]. destruct (PyStr.is_space c0) eqn:E; [exact IH|].
  intros [= <- _]. exact E.
Qed.

Lemma rstrip_head s c r :
  PyStr.rstrip s = String c r -> exists r', s = String c r'.
Proof.
  destruct s as [|c0 s]; [discriminate|].
  cbn [PyStr.rstrip]. destruct (PyStr.rstrip s).
  - destruct (PyStr.is_space c0); [discriminate|]. intros [= <- _]. eauto.
  - intros [= <- _]. eauto.
Qed.

Lemma lstrip_fixed s : PyStr.lstrip (PyStr.lstrip s) = PyStr.lstrip s.
Proof.
  induction s as [|c s IH]; [reflexivity|].
  cbn [PyStr.lstrip]. destruct (PyStr.is_space c) eqn:E; [exact IH|].
  cbn [PyStr.lstrip]. rewrite E. reflexivity.
Qed.

(** [strip] leaves a stripped text alone. *)
Lemma strip_idem s : PyStr.strip (PyStr.strip s) = PyStr.strip s.
Proof.
  unfold PyStr.strip.
  assert (H : PyStr.lstrip (PyStr.rstrip (PyStr.lstrip s)) = PyStr.rstrip (PyStr.lstrip s)).
  { destruct (PyStr.rstrip (PyStr.lstrip s)) as [|c r] eqn:E; [reflexivity|].
    destruct (rstrip_head _ _ _ E) as [r' Hr'].
    cbn [PyStr.lstrip]. rewrite (lstrip_head _ _ _ Hr'). reflexivity. }
  rewrite H. apply rstrip_idem.
Qed.

Lemma one_line_lstrip s : one_line s = true -> one_line (PyStr.lstrip s) = true.
Proof.
  induction s as [|c s IH]; [reflexivity|].
  cbn [PyStr.lstrip]. destruct (PyStr.is_space c); [|trivial].
  simpl. intros H. apply andb_true_iff in H. apply IH. tauto.
Qed.

Lemma one_line_rstrip s : one_line s = true -> one_line (PyStr.rstrip s) = true.
Proof.
  induction s as [|c s IH]; [reflexivity|].
  simpl. intros H. apply andb_true_iff in H. destruct H as [Hc Hs].
  specialize (IH Hs). destruct (PyStr.rstrip s).
  - destruct (PyStr.is_space c); [reflexivity|]. simpl. rewrite Hc. reflexivity.
  - change (negb (PyStr.is_newline c) && one_line (String a s0) = true).
    rewrite Hc, IH. reflexivity.
Qed.

Lemma split_nl_one_line s : Forall (fun l => one_line l = true) (PyStr.split_nl s).
Proof.
  induction s as [|c s IH]; simpl; [repeat constructor|].
  destruct (PyStr.is_newline c) eqn:E.
  - constructor; [reflexivity|exact IH].
  - destruct (PyStr.split_nl s) as [|l ls].
    + constructor; [simpl; rewrite E; reflexivity|constructor].
    + inversion IH; subst. constructor; [simpl; rewrite E; assumption|assumption].
Qed.

(** X1.  The lines the analysis works on are never empty, are stripped (so
    they neither start nor end with whitespace), are not comments and hold
    no newline. *)
Theorem script_lines_are_stripped (content : string) :
  Forall (fun line =>
            PyStr.truthy line = true
            /\ PyStr.strip line = line
            /\ PyStr.startswith "#" line = false
            /\ one_line line = true)
         (script_lines content).
Proof.
  unfold script_lines. apply Forall_forall. intros line Hin.
  apply in_map_iff in Hin. destruct Hin as [raw [<- Hraw]].
  apply filter_In in Hraw. destruct Hraw as [Hsplit Hkeep].
  unfold keep_line in Hkeep. apply andb_true_iff in Hkeep.
  destruct Hkeep as [Ht Hc]. apply negb_true_iff in Hc.
  repeat split; try assumption.
  - apply strip_idem.
  - pose proof (split_nl_one_line content) as H. rewrite Forall_forall in H.
    unfold PyStr.strip. apply one_line_rstrip, one_line_lstrip, H, Hsplit.
Qed.

(** ** The pattern on stripped lines *)

Lemma script_lines_rstrip content :
  Forall (fun line => PyStr.rstrip line = line) (script_lines content).
Proof.
  unfold script_lines. apply Forall_forall. intros line Hin.
  apply in_map_iff in Hin. destruct Hin as [raw [<- _]].
  unfold PyStr.strip. apply rstrip_idem.
Qed.

Lemma token_no_space t : no_space (token t) = true.
Proof.
  induction t as [|c t IH]; [reflexivity|].
  simpl. destruct (PyStr.is_space c) eqn:E; [reflexivity|].
  simpl. rewrite E, IH. reflexivity.
Qed.

Lemma token_lstrip_nonempty c rest :
  PyStr.rstrip (String c rest) = String c rest ->
  PyStr.is_space c = true ->
  token (PyStr.lstrip rest) <> EmptyString.
Proof.
  intros Hfix Hc. destruct (PyStr.lstrip rest) as [|c' r] eqn:E.
  - apply lstrip_empty_rstrip in E. cbn [PyStr.rstrip] in Hfix.
    rewrite E, Hc in Hfix. discriminate Hfix.
  - simpl. rewrite (lstrip_head _ _ _ E). discriminate.
Qed.

(** At the start of a text that does not end with whitespace the pattern
    matches exactly the change-directory lines, and captures the argument. *)
Lemma match_here_clean s :
  PyStr.rstrip s = s -> CdPattern.match_here s = cd_argument s.
Proof.
  intros Hfix.
  destruct s as [|c0 s]; [reflexivity|].
  destruct c0 as [[] [] [] [] [] [] [] []]; try reflexivity.
  destruct s as [|c1 s]; [reflexivity|].
  destruct c1 as [[] [] [] [] [] [] [] []]; try reflexivity.
  apply rstrip_fixed_tail, rstrip_fixed_tail in Hfix.
  destruct s as [|c rest]; [reflexivity|].
  cbn [CdPattern.match_here cd_argument].
  destruct (PyStr.is_space c) eqn:Hc.
  - pose proof (token_lstrip_nonempty _ _ Hfix Hc) as Hne.
    rewrite (spaces_group_token _ _ Hc Hne).
    destruct (token (PyStr.lstrip rest)); [contradiction|reflexivity].
  - cbn [CdPattern.spaces_group]. rewrite Hc. reflexivity.
Qed.

Lemma cd_argument_shape s a :
  cd_argument s = Some a -> PyStr.truthy a = true /\ no_space a = true.
Proof.
  unfold cd_argument.
  destruct s as [|c0 [|c1 [|c rest]]]; try discriminate;
    try (destruct c0 as [[] [] [] [] [] [] [] []]; discriminate);
    try (destruct c0 as [[] [] [] [] [] [] [] []]; try discriminate;
         destruct c1 as [[] [] [] [] [] [] [] []]; discriminate).
  destruct c0 as [[] [] [] [] [] [] [] []]; try discriminate.
  destruct c1 as [[] [] [] [] [] [] [] []]; try discriminate.
  destruct (PyStr.is_space c); [|discriminate].
  destruct (token (PyStr.lstrip rest)) eqn:E; [discriminate|].
  intros [= <-]. split; [reflexivity|]. rewrite <- E. apply token_no_space.
Qed.

Lemma cd_argument_starts s :
  PyStr.rstrip s = s ->
  starts_cd_space s = match cd_argument s with Some _ => true | None => false end.
Proof.
  intros Hfix.
  destruct s as [|c0 s]; [reflexivity|].
  destruct c0 as [[] [] [] [] [] [] [] []]; try reflexivity.
  destruct s as [|c1 s]; [reflexivity|].
  destruct c1 as [[] [] [] [] [] [] [] []]; try reflexivity.
  apply rstrip_fixed_tail, rstrip_fixed_tail in Hfix.
  destruct s as [|c rest]; [reflexivity|].
  cbn [starts_cd_space cd_argument].
  destruct (PyStr.is_space c) eqn:Hc; [|reflexivity].
  pose proof (token_lstrip_nonempty _ _ Hfix Hc) as Hne.
  destruct (token (PyStr.lstrip rest)); [contradiction|reflexivity].
Qed.

Lemma search_clean_shape s : forall g,
  PyStr.rstrip s = s -> CdPattern.search s = Some g ->
  PyStr.truthy g = true /\ no_space g = true.
Proof.
  induction s as [|c s IH]; intros g Hfix.
  - simpl. discriminate.
  - cbn [CdPattern.search]. rewrite (match_here_clean _ Hfix).
    destruct (cd_argument (String c s)) as [a|] eqn:E.
    + intros [= <-]. eapply cd_argument_shape; exact E.
    + apply IH. eapply rstrip_fixed_tail; exact Hfix.
Qed.

Lemma search_clean_none s :
  PyStr.rstrip s = s ->
  CdPattern.search s = None <-> has_cd_space s = false.
Proof.
  induction s as [|c s IH]; intros Hfix.
  - simpl. tauto.
  - cbn [CdPattern.search has_cd_space].
    rewrite (match_here_clean _ Hfix), (cd_argument_starts _ Hfix).
    destruct (cd_argument (String c s)); simpl.
    + split; discriminate.
    + apply IH. eapply rstrip_fixed_tail; exact Hfix.
Qed.

Lemma search_clean_at_start s :
  PyStr.rstrip s = s -> cd_only_at_start s = true ->
  CdPattern.search s = cd_argument s.
Proof.
  intros Hfix Hstart. destruct s as [|c s]; [reflexivity|].
  cbn [CdPattern.search]. rewrite (match_here_clean _ Hfix).
  destruct (cd_argument (String c s)); [reflexivity|].
  simpl in Hstart. apply negb_true_iff in Hstart.
  apply search_clean_none; [eapply rstrip_fixed_tail; exact Hfix|exact Hstart].
Qed.

Lemma last_match_none lines : forall init,
  last_match lines init = None
  <-> init = None /\ Forall (fun line => CdPattern.search line = None) lines.
Proof.
  induction lines as [|line lines IH]; intros init; simpl.
  - split; [intros ->; split; [reflexivity|constructor]|tauto].
  - rewrite IH. destruct (CdPattern.search line) eqn:E; split.
    + intros [H _]. discriminate H.
    + intros [_ H]. inversion H; congruence.
    + intros [H1 H2]. split; [exact H1|constructor; assumption].
    + intros [H1 H2]. inversion H2; subst. tauto.
Qed.

Lemma last_match_shape lines : forall init wd,
  Forall (fun line => PyStr.rstrip line = line) lines ->
  (forall w, init = Some w -> PyStr.truthy w = true /\ no_space w = true) ->
  last_match lines init = Some wd ->
  PyStr.truthy wd = true /\ no_space wd = true.
Proof.
  induction lines as [|line lines IH]; intros init wd Hall Hinit; simpl.
  - intros H. apply Hinit. exact H.
  - inversion Hall as [|? ? Hline Hrest]; subst. apply (IH _ _ Hrest).
    destruct (CdPattern.search line) eqn:E.
    + intros w [= <-]. eapply search_clean_shape; [exact Hline|exact E].
    + exact Hinit.
Qed.

(** ** More on the analysis of one script *)

(** X2.  A script whose lines are all blank or comments is analysed to the
    initial result: no working directory, no command, no current command, no
    project type, no recommendation; it yields no deploy entry. *)
Theorem blank_script_yields_nothing (e : Env) (script_path : path) (content : string) :
  Forall (fun raw => PyStr.strip raw = EmptyString
                     \/ PyStr.startswith "#" (PyStr.strip raw) = true)
         (PyStr.split_nl content) ->
  analyze_content e script_path content
  = Some (initial_result (basename e script_path))
  /\ option_map (fun r => deploy_commands_json [r])
       (analyze_content e script_path content) = Some [].
Proof.
  intros H.
  assert (Hlines : script_lines content = []).
  { unfold script_lines. induction H as [|raw raws Hraw _ IH]; [reflexivity|].
    cbn [filter]. unfold keep_line at 1.
    destruct Hraw as [-> | ->]; [simpl|rewrite andb_false_r]; exact IH. }
  assert (Hr : analyze_content e script_path content
               = Some (initial_result (basename e script_path))).
  { rewrite analyze_content_closed, Hlines. reflexivity. }
  split; [exact Hr|]. rewrite Hr. reflexivity.
Qed.

Lemma blank_script_yields_nothing_witness :
  let content := "#!/bin/bash" ++ nl ++ nl ++ "   # nothing to do" ++ nl in
  analyze_content Fixture.srv_env "/srv/deploy_server_none.sh" content
  = Some (initial_result "deploy_server_none.sh")
  /\ option_map (fun r => deploy_commands_json [r])
       (analyze_content Fixture.srv_env "/srv/deploy_server_none.sh" content)
     = Some [].
Proof.
  apply (blank_script_yields_nothing Fixture.srv_env "/srv/deploy_server_none.sh").
  repeat constructor; (left; reflexivity) || (right; reflexivity).
Defined.

(** X3.  For a script of ASCII text and the result of its analysis: the
    working directory is absent exactly when no kept line holds [cd]
    followed by a whitespace character, anywhere in the line; such a script
    gets neither project type nor recommendation and yields no deploy
    entry. *)
Theorem working_dir_absent_iff (e : Env) (script_path : path) (content : string)
  (r : AnalysisResult) :
  ascii_text content = true ->
  analyze_content e script_path content = Some r ->
  (working_dir r = None
   <-> Forall (fun line => has_cd_space line = false) (script_lines content))
  /\ (working_dir r = None ->
      project_type r = None
      /\ recommended_command r = None
      /\ deploy_commands_json [r] = []).
Proof.
  intros _ Hr. split.
  - rewrite (analyze_working_dir _ _ _ _ Hr), last_match_none.
    pose proof (script_lines_rstrip content) as Hfix.
    split.
    + intros [_ H]. rewrite Forall_forall in *. intros line Hin.
      apply search_clean_none; [apply Hfix|apply H]; exact Hin.
    + intros H. split; [reflexivity|]. rewrite Forall_forall in *. intros line Hin.
      apply search_clean_none; [apply Hfix|apply H]; exact Hin.
  - intros Hwd. rewrite analyze_content_closed in Hr.
    rewrite (recommend_working_dir _ _ _ _ Hr) in Hwd.
    rewrite (recommend_unset _ _ _ Hwd) in Hr. injection Hr as <-.
    repeat split. unfold deploy_commands_json. simpl. unfold entry_step.
    rewrite Hwd. reflexivity.
Qed.

Lemma working_dir_absent_iff_witness :
  let r := {| script := "deploy_server_x.sh";
              working_dir := None;
              commands := ["npm ci"; "./run-cd"];
              current_command := Some "./run-cd";
              project_type := None;
              recommended_command := None |} in
  Forall (fun line => has_cd_space line = false) ["npm ci"; "./run-cd"]
  /\ project_type r = None
  /\ recommended_command r = None
  /\ deploy_commands_json [r] = [].
Proof.
  intros r.
  pose proof (working_dir_absent_iff Fixture.srv_env "/srv/deploy_server_x.sh"
                ("npm ci" ++ nl ++ "./run-cd" ++ nl) r eq_refl eq_refl) as H.
  split; [exact (proj1 (proj1 H) eq_refl)|exact (proj2 H eq_refl)].
Defined.

(** X4.  A working directory that is set is never empty and holds no
    whitespace: it is one token. *)
Theorem working_dir_is_one_token (e : Env) (script_path : path) (content wd : string)
  (r : AnalysisResult) :
  analyze_content e script_path content = Some r ->
  working_dir r = Some wd ->
  PyStr.truthy wd = true /\ no_space wd = true.
Proof.
  intros Hr. rewrite (analyze_working_dir _ _ _ _ Hr). apply last_match_shape.
  - apply script_lines_rstrip.
  - discriminate.
Qed.

Lemma working_dir_is_one_token_witness :
  PyStr.truthy "my" = true /\ no_space "my" = true.
Proof.
  apply (working_dir_is_one_token Fixture.srv_env "/srv/deploy_server_x.sh"
           ("  cd   my app  " ++ nl ++ "npm start") "my"
           {| script := "deploy_server_x.sh";
              working_dir := Some "my";
              commands := ["npm start"];
              current_command := Some "npm start";
              project_type := None;
              recommended_command := None |});
    reflexivity.
Defined.

(** X5.  For a script of ASCII text and the result of its analysis: when
    [cd] followed by whitespace occurs in no line past the start of the
    line, the working directory is the first token after [cd] of the last
    line that starts with [cd] and whitespace, and is absent when there is
    no such line. *)
Theorem working_dir_is_last_cd_argument (e : Env) (script_path : path)
  (content : string) (r : AnalysisResult) :
  ascii_text content = true ->
  Forall (fun line => cd_only_at_start line = true) (script_lines content) ->
  analyze_content e script_path content = Some r ->
  working_dir r = last_cd_argument (script_lines content).
Proof.
  intros _ H Hr. apply (working_dir_on_cd_lines e script_path content); [|exact Hr].
  pose proof (script_lines_rstrip content) as Hfix.
  rewrite Forall_forall in *. intros line Hin Harg.
  rewrite (search_clean_at_start _ (Hfix _ Hin) (H _ Hin)). exact Harg.
Qed.

Lemma working_dir_is_last_cd_argument_witness :
  working_dir {| script := "deploy_server_x.sh";
                 working_dir := Some "second/app";
                 commands := ["npm ci"; "cd" ++ tab ++ "second/app && ls"];
                 current_command := Some ("cd" ++ tab ++ "second/app && ls");
                 project_type := None;
                 recommended_command := None |}
  = last_cd_argument ["cd first"; "npm ci"; "cd" ++ tab ++ "second/app && ls"].
Proof.
  apply (working_dir_is_last_cd_argument Fixture.srv_env "/srv/deploy_server_x.sh"
           ("cd first" ++ nl ++ "npm ci" ++ nl ++ "cd" ++ tab ++ "second/app && ls"));
    [reflexivity | repeat constructor | reflexivity].
Defined.

(** X6.  For a script of ASCII text and the result of its analysis: the
    commands are the kept lines (the lines of the text, stripped, that are
    neither empty nor comments) that do not start with [cd] and a space, in
    the order of the file, and the current command is the last of them,
    absent when there is none. *)
Theorem commands_are_lines_without_cd_prefix (e : Env) (script_path : path)
  (content : string) (r : AnalysisResult) :
  ascii_text content = true ->
  analyze_content e script_path content = Some r ->
  commands r
  = filter (fun line => negb (PyStr.startswith "cd " line))
      (map PyStr.strip
         (filter (fun raw => negb (String.eqb (PyStr.strip raw) EmptyString)
                             && negb (PyStr.startswith "#" (PyStr.strip raw)))
                 (PyStr.split_nl content)))
  /\ current_command r = last (map Some (commands r)) None.
Proof.
  intros _ Hr.
  split; [|eapply current_command_is_last; exact Hr].
  rewrite (commands_keep_order _ _ _ _ Hr). unfold script_lines. do 2 f_equal.
  apply filter_ext. intros raw. unfold keep_line, PyStr.truthy.
  destruct (PyStr.strip raw); reflexivity.
Qed.

Lemma commands_are_lines_without_cd_prefix_witness :
  let r := {| script := "deploy_server_x.sh";
              working_dir := Some "gone";
              commands := ["npm ci"; "npm start"];
              current_command := Some "npm start";
              project_type := None;
              recommended_command := None |} in
  commands r = ["npm ci"; "npm start"]
  /\ current_command r = last (map Some (commands r)) None.
Proof.
  intros r.
  exact (commands_are_lines_without_cd_prefix Fixture.srv_env
           "/srv/deploy_server_x.sh"
           ("# build" ++ nl ++ "cd gone" ++ nl ++ "  npm ci  " ++ nl ++ nl ++ "npm start")
           r eq_refl eq_refl).
Defined.

(** ** More on the detector *)

Lemma detect_shape e d t :
  detect_project_type e d = Some t ->
  (In (type t) ["vite"; "cra"; "vue-cli"; "frontend"]
   /\ category t = "static"
   /\ build_command t = Some "npm run build")
  \/ t = unknown_type.
Proof.
  intros H. pose proof (detect_known e d t H) as Hk. simpl in Hk.
  destruct Hk as [<-|[<-|[<-|[<-|[<-|[]]]]]]; simpl; auto 10.
Qed.

(** X8.  A manifest that parses to something other than an object, or to an
    object whose [dependencies] or [devDependencies] member is present and
    not an object, gives the unknown type, whichever configuration files the
    directory holds. *)
Theorem misshapen_manifest_is_unknown (e : Env) (d : path) (text : string) (pkg : json)
  (found : bool) :
  path_exists e (joinpath e d "package.json") = Some found ->
  read_text e (joinpath e d "package.json") = Some text ->
  json_loads e text = Some pkg ->
  match pkg with
  | JObject members =>
      mapping_member "dependencies" members = None
      \/ mapping_member "devDependencies" members = None
  | _ => True
  end ->
  detect_project_type e d = Some unknown_type.
Proof.
  intros Hex Hread Hload Hshape.
  unfold detect_project_type, obind. rewrite Hex.
  destruct found; [|reflexivity].
  unfold detect_try, obind. rewrite Hread, Hload.
  destruct pkg as [| | | | |members]; try reflexivity.
  unfold PyDict.get. unfold mapping_member in Hshape.
  destruct (PyDict.lookup "scripts" members);
    (destruct (PyDict.lookup "dependencies" members) as [[]|];
     try reflexivity;
     try (destruct Hshape as [Hs|Hs]; [discriminate Hs|]);
     destruct (PyDict.lookup "devDependencies" members) as [[]|];
     try reflexivity;
     try (destruct Hshape as [Hs|Hs]; discriminate Hs);
     try discriminate Hs).
Qed.

Lemma misshapen_manifest_is_unknown_witness :
  detect_project_type Fixture.work_env "/work/site" = Some unknown_type.
Proof.
  apply (misshapen_manifest_is_unknown Fixture.work_env "/work/site"
           Fixture.manifest_null_deps (JObject [("dependencies", JNull)]) true);
    [reflexivity | reflexivity | reflexivity | left; reflexivity].
Defined.

(** ** The analysis and the detector together *)

(** X9.  A script whose working directory exists and is classified static
    is recommended [npm run build], whatever its own commands are, and
    yields the deploy entry of its working directory with that command. *)
Theorem static_project_recommends_build (e : Env) (script_path : path)
  (r : AnalysisResult) (wd : string) (pt : ProjectType) :
  analyze_deploy_script e script_path = Some r ->
  working_dir r = Some wd ->
  path_exists e (joinpath e (parent e script_path) wd) = Some true ->
  detect_project_type e (joinpath e (parent e script_path) wd) = Some pt ->
  category pt = "static" ->
  project_type r = Some pt
  /\ recommended_command r = Some "npm run build"
  /\ deploy_commands_json [r]
     = [{| dir := wd; command := "npm run build"; entry_type := "frontend" |}].
Proof.
  intros Hr Hwd Hex Hpt Hcat.
  apply analyze_deploy_script_content in Hr. destruct Hr as [content [_ Hr]].
  pose proof (analyze_working_dir_truthy _ _ _ _ _ Hr Hwd) as Ht.
  rewrite analyze_content_closed in Hr.
  rewrite (recommend_working_dir _ _ _ _ Hr) in Hwd.
  rewrite (recommend_exists _ _ _ _ _ Hwd Ht Hex Hpt) in Hr. injection Hr as <-.
  destruct (known_static_build pt (detect_known _ _ _ Hpt)) as [[Hs Hb]|[Hs Hb]].
  - rewrite Hb. cbn [PyStr.truthy_opt PyStr.truthy]. cbv iota.
    repeat split.
    unfold deploy_commands_json. cbn [fold_left]. unfold entry_step, not_static.
    cbn [working_dir recommended_command project_type set_recommended_command
         set_project_type] in Hwd |- *.
    rewrite Hwd. cbn [PyStr.truthy]. rewrite Ht, Hs. reflexivity.
  - rewrite Hcat in Hs. discriminate Hs.
Qed.

Lemma static_project_recommends_build_witness :
  let r := {| script := "deploy_server_web.sh";
              working_dir := Some "app/frontend";
              commands := ["npm run dev"];
              current_command := Some "npm run dev";
              project_type := Some vite_type;
              recommended_command := Some "npm run build" |} in
  project_type r = Some vite_type
  /\ recommended_command r = Some "npm run build"
  /\ deploy_commands_json [r]
     = [{| dir := "app/frontend"; command := "npm run build"; entry_type := "frontend" |}].
Proof.
  exact (static_project_recommends_build Fixture.srv_env "/srv/deploy_server_web.sh"
           _ "app/frontend" vite_type eq_refl eq_refl eq_refl eq_refl eq_refl).
Defined.

(** X10.  A script whose working directory exists and is not classified
    static keeps its own last command as the recommendation, and is left out
    of the JSON array and of the generated script all the same. *)
Theorem other_project_keeps_current_command (e : Env) (script_path : path)
  (r : AnalysisResult) (wd : string) (pt : ProjectType) :
  analyze_deploy_script e script_path = Some r ->
  working_dir r = Some wd ->
  path_exists e (joinpath e (parent e script_path) wd) = Some true ->
  detect_project_type e (joinpath e (parent e script_path) wd) = Some pt ->
  category pt <> "static" ->
  project_type r = Some unknown_type
  /\ recommended_command r = current_command r
  /\ deploy_commands_json [r] = []
  /\ forall base, shell_script_lines base [r] = script_header base.
Proof.
  intros Hr Hwd Hex Hpt Hcat.
  apply analyze_deploy_script_content in Hr. destruct Hr as [content [_ Hr]].
  pose proof (analyze_working_dir_truthy _ _ _ _ _ Hr Hwd) as Ht.
  rewrite analyze_content_closed in Hr.
  rewrite (recommend_working_dir _ _ _ _ Hr) in Hwd.
  rewrite (recommend_exists _ _ _ _ _ Hwd Ht Hex Hpt) in Hr. injection Hr as <-.
  destruct (detect_shape _ _ _ Hpt) as [[_ [Hs _]]|Hu]; [contradiction|].
  rewrite Hu. cbn [build_command unknown_type PyStr.truthy_opt]. cbv iota.
  repeat split.
  - unfold deploy_commands_json. cbn [fold_left]. unfold entry_step, not_static.
    cbn [working_dir recommended_command project_type set_recommended_command
         set_project_type category unknown_type] in Hwd |- *.
    rewrite Hwd. destruct (current_of _); [|reflexivity].
    destruct (_ && _); reflexivity.
  - intros base. unfold shell_script_lines. cbn [fold_left].
    unfold script_step, not_static.
    cbn [working_dir recommended_command project_type set_recommended_command
         set_project_type category unknown_type] in Hwd |- *.
    rewrite Hwd. destruct (current_of _); [|reflexivity].
    destruct (_ || _); reflexivity.
Qed.

Lemma other_project_keeps_current_command_witness :
  let r := {| script := "deploy_server_api.sh";
              working_dir := Some "api";
              commands := ["node server.js"];
              current_command := Some "node server.js";
              project_type := Some unknown_type;
              recommended_command := Some "node server.js" |} in
  project_type r = Some unknown_type
  /\ recommended_command r = current_command r
  /\ deploy_commands_json [r] = []
  /\ forall base, shell_script_lines base [r] = script_header base.
Proof.
  apply (other_project_keeps_current_command Fixture.srv_env
           "/srv/deploy_server_api.sh" _ "api" unknown_type
           eq_refl eq_refl eq_refl eq_refl).
  discriminate.
Defined.

(** ** More on the runs of the subcommands *)

Lemma analyze_all_unreadable e paths p :
  In p paths -> read_text e p = None -> analyze_all e paths = None.
Proof.
  induction paths as [|q paths IH]; simpl; [tauto|].
  intros [->|Hin] Hread; unfold obind.
  - unfold analyze_deploy_script, obind. rewrite Hread. reflexivity.
  - destruct (analyze_deploy_script e q); [|reflexivity].
    rewrite (IH Hin Hread). reflexivity.
Qed.

Lemma analyze_all_tokens e paths : forall results,
  analyze_all e paths = Some results ->
  Forall (fun r => forall wd, working_dir r = Some wd -> no_space wd = true) results.
Proof.
  induction paths as [|p paths IH]; simpl; intros results.
  - intros [= <-]. constructor.
  - unfold obind. destruct (analyze_deploy_script e p) as [r|] eqn:Hr; [|discriminate].
    destruct (analyze_all e paths) as [rs|]; [|discriminate].
    intros [= <-]. constructor; [|apply IH; reflexivity].
    apply analyze_deploy_script_content in Hr. destruct Hr as [content [_ Hr]].
    intros wd. rewrite (analyze_working_dir _ _ _ _ Hr). intros H.
    eapply last_match_shape; [apply script_lines_rstrip| |exact H]. discriminate.
Qed.

Lemma returned_main_analyze e target_dir :
  returned (main e (Analyze target_dir))
  = match snd (analyze_outcome e target_dir) with
    | Some _ => Some tt
    | None => None
    end.
Proof.
  cbn [main]. rewrite bind_returned.
  pose proof (infer_deploy_commands_run e target_dir) as H.
  rewrite <- H. cbn [snd]. destruct (returned _); reflexivity.
Qed.

(** X11.  Every JSON document the json and analyze subcommands print or
    write is the error object or an array whose elements carry the command
    [npm run build] and a directory that is one non-empty token: a script's
    own command never reaches the array. *)
Theorem json_commands_are_npm_run_build (e : Env) (target_dir : string) :
  Forall build_document (payloads (main e (Json target_dir)))
  /\ Forall build_document (payloads (main e (Analyze target_dir))).
Proof.
  assert (Herr : forall msg, Forall build_document [error_json msg]).
  { intros msg. constructor; [|constructor]. left. exists msg. reflexivity. }
  assert (Hdoc : forall paths results,
             analyze_all e paths = Some results ->
             build_document (entries_json (deploy_commands_json results))).
  { intros paths results Hres. right.
    exists (map entry_json (deploy_commands_json results)). split; [reflexivity|].
    pose proof (analyze_all_well_formed _ _ _ Hres) as Hwf.
    pose proof (analyze_all_tokens _ _ _ Hres) as Htok.
    rewrite deploy_commands_json_closed. clear Hres.
    induction Hwf as [|r rs Hr _ IH]; [constructor|].
    inversion Htok as [|? ? Hrt Hrest]; subst.
    cbn [flat_map]. rewrite map_app. apply Forall_app. split; [|apply IH; exact Hrest].
    destruct Hr as [Htruthy Hr'].
    destruct (entry_of_well_formed r (conj Htruthy Hr'))
      as [[_ [wd [Hw [_ ->]]]]|[_ ->]]; [|constructor].
    constructor; [|constructor]. exists wd.
    repeat split; [apply Htruthy; exact Hw|apply Hrt; exact Hw]. }
  split.
  - cbn [main]. unfold output_json_only.
    destruct (path_exists e (resolve e target_dir)) as [[|]|];
      [rewrite bind_try_some; simpl negb; cbv iota
      |rewrite bind_try_some; apply Herr
      |rewrite bind_try_none; constructor].
    destruct (glob e (resolve e target_dir) deploy_glob) as [|s ss].
    + apply Herr.
    + destruct (analyze_all e (sorted e (s :: ss))) as [results|] eqn:Hres.
      * rewrite bind_try_some.
        constructor; [eapply Hdoc; exact Hres|constructor].
      * rewrite bind_try_none. constructor.
  - rewrite payloads_main_analyze. unfold analyze_outcome.
    destruct (path_exists e (resolve e target_dir)) as [[|]|]; [|constructor..].
    destruct (glob e (resolve e target_dir) deploy_glob) as [|s ss]; [constructor|].
    destruct (analyze_all e (sorted e (s :: ss))) as [results|] eqn:Hres;
      [|constructor].
    destruct (writable e _); cbn [fst]; [|constructor].
    constructor; [eapply Hdoc; exact Hres|].
    constructor; [eapply Hdoc; exact Hres|constructor].
Qed.

Lemma shell_script_lines_blocks (e : Env) (paths : list path)
  (results : list AnalysisResult) (base : path) :
  analyze_all e paths = Some results ->
  shell_script_lines base results
  = (script_header base ++ flat_map static_block (filter is_static results))%list.
Proof.
  intros Hres. rewrite shell_script_lines_closed. f_equal.
  pose proof (analyze_all_well_formed _ _ _ Hres) as Hwf. clear Hres.
  induction Hwf as [|r rs Hr _ IH]; [reflexivity|].
  cbn [flat_map filter]. rewrite IH.
  destruct (script_of_well_formed r Hr) as [[Hs [wd [Hw Hl]]]|[Hs Hl]];
    rewrite Hs, Hl; [|reflexivity].
  cbn [flat_map]. unfold static_block at 2. rewrite Hw. reflexivity.
Qed.

(** X12.  The generated script of a run is its header, twelve lines that
    start with the shebang, turn on the exit on error and set the two
    directories, followed by one block of twenty lines for each static
    result, in order: the block names the script and the project type,
    enters the working directory under the base directory, runs
    [npm install && npm run build] and copies [dist] when it is there.  The
    other results leave no line. *)
Theorem generated_script_blocks (e : Env) (paths : list path)
  (results : list AnalysisResult) (base : path) :
  analyze_all e paths = Some results ->
  exists blocks : list (string * string * string),
    Forall2 (fun r b =>
               script r = fst (fst b)
               /\ option_map description (project_type r) = Some (snd (fst b))
               /\ working_dir r = Some (snd b))
            (filter is_static results) blocks
    /\ shell_script_lines base results
       = app
          [ "#!/bin/bash";
            "# 自动生成的部署脚本";
            "# 功能: 进入目录、执行构建命令、复制dist产物到/website目录";
            "";
            "set -e  # 遇到错误立即退出";
            "";
            "# 输出目录";
            "OUTPUT_DIR=" ++ dq ++ "$1" ++ dq;
            "# 脚本基础目录";
            "BASE_DIR=" ++ dq ++ base ++ dq;
            "cd " ++ dq ++ "$BASE_DIR" ++ dq;
            "" ]
          (flat_map
               (fun b =>
                  let name := fst (fst b) in
                  let kind := snd (fst b) in
                  let wd := snd b in
                  [ "# 项目: " ++ name;
                    "# 类型: " ++ kind;
                    "";
                    "echo " ++ dq ++ "进入目录: " ++ wd ++ dq;
                    "cd " ++ dq ++ "$BASE_DIR/" ++ wd ++ dq;
                    "";
                    "echo " ++ dq ++ "执行构建命令: "
                      ++ "npm install && npm run build" ++ dq;
                    "npm install && npm run build";
                    "";
                    "echo " ++ dq ++ "复制dist产物到${OUTPUT_DIR}目录" ++ dq;
                    "if [ -d " ++ dq ++ "$BASE_DIR/" ++ wd ++ "/dist" ++ dq ++ " ]; then";
                    "    mkdir -p $OUTPUT_DIR";
                    "    cp -r dist/* $OUTPUT_DIR";
                    "    echo " ++ dq ++ "复制完成" ++ dq;
                    "else";
                    "    echo " ++ dq ++ "警告: dist目录不存在，跳过复制" ++ dq;
                    "fi";
                    "";
                    "echo " ++ dq ++ "---" ++ dq;
                    "" ])
               blocks).
Proof.
  intros Hres. rewrite (shell_script_lines_blocks e paths results base Hres).
  pose proof (analyze_all_well_formed _ _ _ Hres) as Hwf. clear Hres.
  match goal with
  | |- exists blocks, _ /\ _ = app _ (flat_map ?f blocks) => set (block := f)
  end.
  assert (H : exists blocks : list (string * string * string),
             Forall2 (fun r b =>
                        script r = fst (fst b)
                        /\ option_map description (project_type r) = Some (snd (fst b))
                        /\ working_dir r = Some (snd b))
                     (filter is_static results) blocks
             /\ flat_map static_block (filter is_static results)
                = flat_map block blocks).
  { induction Hwf as [|r rs Hr _ IH].
    - exists []. split; [constructor|reflexivity].
    - destruct IH as [blocks [Hblocks Hlines]]. cbn [filter].
      destruct (is_static r) eqn:Hs; [|exists blocks; split; assumption].
      unfold is_static in Hs. destruct Hr as [_ Hpt].
      destruct (project_type r) as [pt|] eqn:Hp; [|discriminate Hs].
      destruct Hpt as [[wd Hw] _].
      exists ((script r, description pt, wd) :: blocks). split.
      + constructor; [|exact Hblocks]. cbn [fst snd]. rewrite Hp.
        repeat split. exact Hw.
      + cbn [flat_map]. rewrite Hlines. f_equal.
        unfold static_block, project_lines, cd_line. rewrite Hw, Hp. reflexivity. }
  destruct H as [blocks [Hblocks Hlines]]. exists blocks.
  split; [exact Hblocks|]. rewrite Hlines. reflexivity.
Qed.

Lemma generated_script_blocks_witness :
  exists blocks : list (string * string * string),
    Forall2 (fun r b =>
               script r = fst (fst b)
               /\ option_map description (project_type r) = Some (snd (fst b))
               /\ working_dir r = Some (snd b))
            [ {| script := "deploy_server_web.sh"; working_dir := Some "app/frontend";
                 commands := ["npm run dev"];
                 current_command := Some "npm run dev";
                 project_type := Some vite_type;
                 recommended_command := Some "npm run build" |} ]
            blocks
    /\ List.length blocks = 1.
Proof.
  destruct (generated_script_blocks Fixture.srv_env
              (sorted Fixture.srv_env (glob Fixture.srv_env "/srv" deploy_glob))
              _ "/srv" eq_refl) as [blocks [H _]].
  exists blocks. split; [exact H|].
  apply Forall2_length in H. symmetry. exact H.
Defined.

(** X13.  When one of the discovered scripts cannot be read, the exception
    leaves the json, script and analyze subcommands: json and script perform
    no effect at all, analyze prints or writes no JSON document; the list
    subcommand, which reads no script, still returns. *)
Theorem unreadable_script_aborts (e : Env) (target_dir : string) (p : path) :
  path_exists e (resolve e target_dir) = Some true ->
  In p (glob e (resolve e target_dir) deploy_glob) ->
  read_text e p = None ->
  main e (Json target_dir) = ([], None)
  /\ (forall output_path, main e (Script target_dir output_path) = ([], None))
  /\ returned (main e (Analyze target_dir)) = None
  /\ payloads (main e (Analyze target_dir)) = []
  /\ returned (main e (ListScripts target_dir)) = Some tt.
Proof.
  intros Hex Hin Hread.
  assert (Hnone : analyze_all e (sorted e (glob e (resolve e target_dir) deploy_glob))
                  = None).
  { apply (analyze_all_unreadable e _ p); [|exact Hread].
    eapply Permutation_in; [apply Permutation_sym, sorted_permutation|exact Hin]. }
  destruct (glob e (resolve e target_dir) deploy_glob) as [|s ss] eqn:Hglob;
    [contradiction|].
  repeat split.
  - cbn [main]. unfold output_json_only. rewrite Hex, bind_try_some, Hglob.
    simpl negb. cbv iota. rewrite Hnone. reflexivity.
  - intros output_path. cbn [main]. unfold generate_shell_script.
    rewrite Hex, bind_try_some, Hglob. simpl negb. cbv iota.
    rewrite Hnone. reflexivity.
  - rewrite returned_main_analyze. unfold analyze_outcome.
    rewrite Hex, Hglob. rewrite Hnone. reflexivity.
  - rewrite payloads_main_analyze. unfold analyze_outcome.
    rewrite Hex, Hglob. rewrite Hnone. reflexivity.
  - cbn [main]. unfold list_scripts. rewrite Hex, bind_try_some, Hglob.
    simpl negb. cbv iota.
    rewrite returned_quiet_seq by apply quiet_print.
    apply quiet_for_each. intros x. apply quiet_print.
Qed.

Lemma unreadable_script_aborts_witness :
  main jobs_env (Json "/jobs") = ([], None)
  /\ (forall output_path, main jobs_env (Script "/jobs" output_path) = ([], None))
  /\ returned (main jobs_env (Analyze "/jobs")) = None
  /\ payloads (main jobs_env (Analyze "/jobs")) = []
  /\ returned (main jobs_env (ListScripts "/jobs")) = Some tt.
Proof.
  apply (unreadable_script_aborts jobs_env "/jobs" "/jobs/deploy_server_b.sh");
    [reflexivity | right; left; reflexivity | reflexivity].
Defined.

(** X14.  When the existence test answers that the target directory is not
    there, or the directory is there and holds no deploy script, the analyze
    and list subcommands print one message and return, and analyze writes no
    file; the script subcommand prints the same message, or, given an output
    path it can write to, writes the two-line script that holds the message
    as a comment. *)
Theorem nothing_to_analyze (e : Env) (target_dir : string) (msg : string) :
  (path_exists e (resolve e target_dir) = Some false
   /\ msg = "错误: 目录不存在: " ++ resolve e target_dir)
  \/ (path_exists e (resolve e target_dir) = Some true
      /\ glob e (resolve e target_dir) deploy_glob = []
      /\ msg = "在 " ++ resolve e target_dir
                     ++ " 目录下未找到 deploy_server_*.sh 脚本") ->
  main e (Analyze target_dir) = ([Print msg], Some tt)
  /\ main e (ListScripts target_dir) = ([Print msg], Some tt)
  /\ main e (Script target_dir None) = ([Print msg], Some tt)
  /\ (forall out, PyStr.truthy out = true -> writable e out = true ->
        main e (Script target_dir (Some out))
        = ([WriteText out ("#!/bin/bash" ++ nl ++ "# " ++ msg ++ nl)], Some tt)).
Proof.
  intros H. cbn [main].
  unfold infer_deploy_commands, list_scripts, generate_shell_script.
  destruct H as [[Hex ->]|[Hex [Hglob ->]]]; rewrite Hex, !bind_try_some;
    simpl negb; cbv iota; [|rewrite Hglob];
    (repeat split;
     intros out Hout Hw; unfold script_error, write_text; rewrite Hout, Hw;
     reflexivity).
Qed.

Lemma nothing_to_analyze_witness :
  main Fixture.srv_env (Analyze "/nowhere")
  = ([Print "错误: 目录不存在: /nowhere"], Some tt)
  /\ main Fixture.srv_env (ListScripts "/nowhere")
     = ([Print "错误: 目录不存在: /nowhere"], Some tt)
  /\ main Fixture.srv_env (Script "/nowhere" None)
     = ([Print "错误: 目录不存在: /nowhere"], Some tt)
  /\ main Fixture.srv_env (Script "/nowhere" (Some "/srv/build.sh"))
     = ([WriteText "/srv/build.sh"
           ("#!/bin/bash" ++ nl ++ "# " ++ "错误: 目录不存在: /nowhere" ++ nl)],
        Some tt).
Proof.
  pose proof (nothing_to_analyze Fixture.srv_env "/nowhere"
                "错误: 目录不存在: /nowhere"
                (or_introl (conj eq_refl eq_refl))) as [H1 [H2 [H3 H4]]].
  exact (conj H1 (conj H2 (conj H3 (H4 "/srv/build.sh" eq_refl eq_refl)))).
Defined.

Lemma json_prints_one_document_aux e target_dir :
  main e (Json target_dir) = ([], None)
  \/ exists j indent, main e (Json target_dir) = ([PrintJson j indent], Some tt).
Proof.
  cbn [main]. unfold output_json_only.
  destruct (path_exists e (resolve e target_dir)) as [[|]|];
    [rewrite bind_try_some; simpl negb; cbv iota
    |right; eexists; eexists; reflexivity
    |left; reflexivity].
  destruct (glob e (resolve e target_dir) deploy_glob) as [|s ss].
  - right. eexists. eexists. reflexivity.
  - destruct (analyze_all e (sorted e (s :: ss))) as [results|].
    + right. rewrite bind_try_some. eexists. eexists. reflexivity.
    + left. reflexivity.
Qed.

(** X15.  The json subcommand performs at most one effect, the print of one
    JSON document, after which it returns; it prints no other text and
    writes nothing.  It performs no effect exactly when an exception leaves
    it. *)
Theorem json_prints_one_document (e : Env) (target_dir : string) :
  main e (Json target_dir) = ([], None)
  \/ exists j indent, main e (Json target_dir) = ([PrintJson j indent], Some tt).
Proof. apply json_prints_one_document_aux. Qed.

(** X16.  In a run that analyses every script, the results are in one-to-one
    correspondence with the discovered scripts: their names are a
    rearrangement of the names of the globbed paths, and there are as many
    results as paths. *)
Theorem every_script_analysed_once (e : Env) (deploy_scripts : list path)
  (results : list AnalysisResult) :
  analyze_all e (sorted e deploy_scripts) = Some results ->
  Permutation (map script results) (map (basename e) deploy_scripts)
  /\ List.length results = List.length deploy_scripts.
Proof.
  intros Hres. pose proof (analyze_all_scripts _ _ _ Hres) as Hnames.
  assert (Hperm : Permutation (map script results) (map (basename e) deploy_scripts)).
  { rewrite Hnames. apply Permutation_map, sorted_permutation. }
  split; [exact Hperm|].
  apply Permutation_length in Hperm. rewrite !length_map in Hperm. exact Hperm.
Qed.

Lemma every_script_analysed_once_witness :
  exists results,
    Permutation (map script results)
      (map (basename Fixture.srv_env) (glob Fixture.srv_env "/srv" deploy_glob))
    /\ List.length results = List.length (glob Fixture.srv_env "/srv" deploy_glob).
Proof.
  eexists.
  apply (every_script_analysed_once Fixture.srv_env
           (glob Fixture.srv_env "/srv" deploy_glob)).
  reflexivity.
Defined.

(** ** What the subcommands write *)

Lemma touched_bind {A B : Type} (m : M A) (f : A -> M B) :
  touched (bind m f)
  = (touched m ++ match returned m with
                  | Some a => touched (f a)
                  | None => []
                  end)%list.
Proof.
  unfold touched, touched_paths. rewrite bind_effects, flat_map_app.
  destruct (returned m); reflexivity.
Qed.

Lemma text_only_print s : text_only (print s).
Proof. split; reflexivity. Qed.

Lemma text_only_ret : text_only (ret tt).
Proof. split; reflexivity. Qed.

Lemma text_only_seq m1 m2 : text_only m1 -> text_only m2 -> text_only (m1 ;;; m2).
Proof.
  intros [P1 R1] [P2 R2]. split.
  - rewrite touched_bind, P1, R1, P2. reflexivity.
  - rewrite bind_returned, R1. exact R2.
Qed.

Lemma text_only_when b m : text_only m -> text_only (when b m).
Proof. destruct b; [trivial|intros _; apply text_only_ret]. Qed.

Lemma text_only_for_each {A : Type} (l : list A) (body : A -> M unit) :
  (forall x, text_only (body x)) -> text_only (for_each l body).
Proof.
  intros H. induction l as [|x l IH]; cbn [for_each]; [apply text_only_ret|].
  apply text_only_seq; [apply H|exact IH].
Qed.

Ltac text_only_steps :=
  repeat first
    [ apply text_only_seq | apply text_only_print | apply text_only_ret
    | apply text_only_when | assumption ].

Lemma text_only_print_numbered cmds : forall i, text_only (print_numbered i cmds).
Proof.
  induction cmds as [|c cmds IH]; intros i; cbn [print_numbered]; text_only_steps.
  apply IH.
Qed.

Lemma text_only_report_result r : text_only (report_result r).
Proof.
  unfold report_result. text_only_steps.
  - destruct (working_dir r); text_only_steps.
  - destruct (project_type r); text_only_steps.
  - destruct (commands r); text_only_steps. apply text_only_print_numbered.
  - destruct (current_command r); text_only_steps.
  - destruct (recommended_command r) as [rc|]; text_only_steps.
    destruct (PyStr.truthy rc); text_only_steps.
    destruct (current_command r); text_only_steps.
Qed.

Lemma text_only_summary_line r : text_only (summary_line r).
Proof.
  unfold summary_line. destruct (recommended_command r); text_only_steps.
Qed.

Lemma text_only_type_statistics results : text_only (type_statistics results).
Proof.
  unfold type_statistics. destruct (project_types results); text_only_steps.
  apply text_only_for_each. intros x. apply text_only_print.
Qed.

Lemma touched_text_seq {B : Type} (m1 : M unit) (m2 : M B) :
  text_only m1 -> touched (m1 ;;; m2) = touched m2.
Proof. intros [P R]. rewrite touched_bind, P, R. reflexivity. Qed.

Lemma touched_analyze_and_report e paths : forall acc,
  touched (analyze_and_report e paths acc) = [].
Proof.
  induction paths as [|p paths IH]; intros acc; cbn [analyze_and_report];
    [reflexivity|].
  destruct (analyze_deploy_script e p) as [r|];
    [rewrite bind_try_some|rewrite bind_try_none; reflexivity].
  rewrite (touched_text_seq _ _ (text_only_report_result r)). apply IH.
Qed.

Lemma touched_infer_deploy_commands e target_dir :
  touched (infer_deploy_commands e (Some target_dir)) = []
  \/ touched (infer_deploy_commands e (Some target_dir))
     = [joinpath e (resolve e target_dir) "deploy_commands.json"].
Proof.
  unfold infer_deploy_commands.
  destruct (path_exists e (resolve e target_dir)) as [[|]|];
    [rewrite bind_try_some; simpl negb; cbv iota
    |left; reflexivity|left; reflexivity].
  destruct (glob e (resolve e target_dir) deploy_glob) as [|s ss];
    [left; reflexivity|].
  rewrite !touched_text_seq by apply text_only_print.
  rewrite touched_bind, touched_analyze_and_report.
  destruct (returned (analyze_and_report e (sorted e (s :: ss)) [])) as [results|];
    [|left; reflexivity].
  cbn [app].
  rewrite !touched_text_seq
    by first [apply text_only_print | apply text_only_type_statistics
             | apply text_only_for_each; apply text_only_summary_line].
  unfold dump_json.
  destruct (writable e (joinpath e (resolve e target_dir) "deploy_commands.json"));
    [right|left]; reflexivity.
Qed.

(** X17.  The json and list subcommands write nothing, and neither does the
    script subcommand without an output path; the analyze subcommand writes
    at most one file, [deploy_commands.json] in the target directory; the
    script subcommand with an output path touches that path only. *)
Theorem subcommands_write_only_their_output (e : Env) (target_dir : string) :
  touched (main e (Json target_dir)) = []
  /\ touched (main e (ListScripts target_dir)) = []
  /\ touched (main e (Script target_dir None)) = []
  /\ (touched (main e (Analyze target_dir)) = []
      \/ touched (main e (Analyze target_dir))
         = [joinpath e (resolve e target_dir) "deploy_commands.json"])
  /\ forall out p,
       In p (touched (main e (Script target_dir (Some out)))) ->
       p = out \/ p = to_path e out.
Proof.
  repeat split.
  - destruct (json_prints_one_document_aux e target_dir) as [->|[j [i ->]]];
      reflexivity.
  - cbn [main]. unfold list_scripts.
    destruct (path_exists e (resolve e target_dir)) as [[|]|];
      [rewrite bind_try_some; simpl negb; cbv iota|reflexivity|reflexivity].
    destruct (glob e (resolve e target_dir) deploy_glob) as [|s ss]; [reflexivity|].
    rewrite touched_text_seq by apply text_only_print.
    apply text_only_for_each. intros x. apply text_only_print.
  - cbn [main]. unfold generate_shell_script.
    destruct (path_exists e (resolve e target_dir)) as [[|]|];
      [rewrite bind_try_some; simpl negb; cbv iota|reflexivity|reflexivity].
    destruct (glob e (resolve e target_dir) deploy_glob) as [|s ss]; [reflexivity|].
    destruct (analyze_all e (sorted e (s :: ss))) as [results|];
      [rewrite bind_try_some|rewrite bind_try_none]; reflexivity.
  - cbn [main]. rewrite touched_bind.
    destruct (touched_infer_deploy_commands e target_dir) as [H|H]; rewrite H;
      [left|right]; destruct (returned _); reflexivity.
  - intros out p. cbn [main]. unfold generate_shell_script.
    assert (Herr : forall msg, In p (touched (script_error e (Some out) msg)) ->
                               p = out \/ p = to_path e out).
    { intros msg. unfold script_error, write_text.
      destruct (PyStr.truthy out); [|intros []].
      destruct (writable e out); simpl; [|intros []].
      intros [<-|[]]. left. reflexivity. }
    destruct (path_exists e (resolve e target_dir)) as [[|]|];
      [rewrite bind_try_some; simpl negb; cbv iota
      |rewrite bind_try_some; apply Herr
      |rewrite bind_try_none; intros []].
    destruct (glob e (resolve e target_dir) deploy_glob) as [|s ss]; [apply Herr|].
    destruct (analyze_all e (sorted e (s :: ss))) as [results|];
      [rewrite bind_try_some|rewrite bind_try_none; intros []].
    unfold write_script, write_text.
    destruct (PyStr.truthy out); [|intros []].
    destruct (writable e (to_path e out)); simpl; [|intros []].
    intros [<-|[<-|[]]]; right; reflexivity.
Qed.

(** ** The order of the scripts *)

Section Order.

Variable e : Env.
Hypothesis Horder : strict_total_order (path_lt e).

(** [x] does not come after [y]. *)
Let before (x y : path) : Prop := path_lt e y x = false.

Lemma lt_asym x y : path_lt e x y = true -> path_lt e y x = false.
Proof.
  destruct Horder as [Hirr [Htrans _]]. intros H.
  destruct (path_lt e y x) eqn:E; [|reflexivity].
  rewrite <- (Hirr x). symmetry. eapply Htrans; eassumption.
Qed.

Lemma before_trans_lt x y z :
  path_lt e y x = false -> path_lt e z y = false -> path_lt e z x = false.
Proof.
  destruct Horder as [Hirr [Htrans Htotal]]. intros Hxy Hyz.
  destruct (path_lt e z x) eqn:E; [|reflexivity].
  destruct (string_dec y x) as [->|Hne]; [congruence|].
  destruct (Htotal y x Hne) as [H|H]; [congruence|].
  rewrite (Htrans z x y E H) in Hyz. discriminate Hyz.
Qed.

Lemma insert_sorted_strongly x l :
  StronglySorted before l -> StronglySorted before (insert_sorted e x l).
Proof.
  induction 1 as [|y l Hl IH Hy]; simpl; [repeat constructor|].
  destruct (path_lt e y x) eqn:E.
  - constructor; [exact IH|].
    eapply Permutation_Forall;
      [apply Permutation_sym, insert_sorted_permutation|].
    constructor; [|exact Hy]. unfold before. apply lt_asym. exact E.
  - constructor; [constructor; assumption|].
    constructor; [exact E|].
    eapply Forall_impl; [|exact Hy]. intros z Hz. unfold before in *.
    eapply before_trans_lt; eassumption.
Qed.

Lemma sorted_strongly l : StronglySorted before (sorted e l).
Proof.
  induction l as [|x l IH]; simpl; [constructor|].
  apply insert_sorted_strongly. exact IH.
Qed.

Lemma strongly_sorted_unique l1 : forall l2,
  StronglySorted before l1 -> StronglySorted before l2 ->
  Permutation l1 l2 -> l1 = l2.
Proof.
  destruct Horder as [Hirr [Htrans Htotal]].
  induction l1 as [|a l1 IH]; intros l2 H1 H2 Hperm.
  - apply Permutation_nil in Hperm. congruence.
  - destruct l2 as [|b l2];
      [apply Permutation_sym, Permutation_nil in Hperm; discriminate|].
    inversion H1 as [|? ? H1' Ha]; subst. inversion H2 as [|? ? H2' Hb]; subst.
    assert (Hab : a = b).
    { destruct (string_dec a b) as [Heq|Hne]; [exact Heq|exfalso].
      assert (Hb_in : In b (a :: l1))
        by (eapply Permutation_in; [apply Permutation_sym, Hperm|left; reflexivity]).
      assert (Ha_in : In a (b :: l2))
        by (eapply Permutation_in; [apply Hperm|left; reflexivity]).
      destruct Hb_in as [Heq|Hb_in]; [congruence|].
      destruct Ha_in as [Heq|Ha_in]; [congruence|].
      rewrite Forall_forall in Ha, Hb.
      specialize (Ha b Hb_in). specialize (Hb a Ha_in). unfold before in *.
      destruct (Htotal a b Hne); congruence. }
    subst b. f_equal. apply IH; try assumption.
    eapply Permutation_cons_inv; exact Hperm.
Qed.

Lemma sorted_of_permutation l1 l2 :
  Permutation l1 l2 -> sorted e l1 = sorted e l2.
Proof.
  intros Hperm. apply strongly_sorted_unique; try apply sorted_strongly.
  eapply perm_trans; [apply sorted_permutation|].
  eapply perm_trans; [exact Hperm|apply Permutation_sym, sorted_permutation].
Qed.

End Order.

Lemma string_ltb_order : strict_total_order String.ltb.
Proof.
  unfold strict_total_order, String.ltb. repeat split.
  - intros x. assert (H : String.compare x x = Eq)
      by (apply (proj2 (String_as_OT.cmp_eq x x)); reflexivity).
    rewrite H. reflexivity.
  - intros x y z Hxy Hyz.
    destruct (String.compare x y) eqn:E1; try discriminate.
    destruct (String.compare y z) eqn:E2; try discriminate.
    apply String_as_OT.cmp_lt in E1, E2.
    pose proof (String_as_OT.lt_trans _ _ _ E1 E2) as H.
    apply String_as_OT.cmp_lt in H. unfold String_as_OT.cmp in H. rewrite H.
    reflexivity.
  - intros x y Hne. destruct (String.compare x y) eqn:E.
    + apply String_as_OT.cmp_eq in E. contradiction.
    + left. reflexivity.
    + right. rewrite String.compare_antisym, E. reflexivity.
Qed.

(** X18.  When [<] is a strict total order on paths, the order in which the
    directory lists the scripts does not matter: every listing of the same
    paths is sorted to the same sequence, so the scripts are analysed in
    the same order and give the same results. *)
Theorem listing_order_is_irrelevant (e : Env) (l1 l2 : list path) :
  strict_total_order (path_lt e) ->
  Permutation l1 l2 ->
  sorted e l1 = sorted e l2
  /\ analyze_all e (sorted e l1) = analyze_all e (sorted e l2).
Proof.
  intros Horder Hperm.
  pose proof (sorted_of_permutation e Horder l1 l2 Hperm) as H.
  split; [exact H|]. rewrite H. reflexivity.
Qed.

Lemma listing_order_is_irrelevant_witness :
  sorted Fixture.srv_env (glob Fixture.srv_env "/srv" deploy_glob)
  = sorted Fixture.srv_env (rev (glob Fixture.srv_env "/srv" deploy_glob))
  /\ analyze_all Fixture.srv_env
       (sorted Fixture.srv_env (glob Fixture.srv_env "/srv" deploy_glob))
     = analyze_all Fixture.srv_env
         (sorted Fixture.srv_env (rev (glob Fixture.srv_env "/srv" deploy_glob))).
Proof.
  apply (listing_order_is_irrelevant Fixture.srv_env).
  - exact string_ltb_order.
  - apply Permutation_rev.
Defined.

(** ** What analyze returns and what list prints *)

Lemma touched_infer_exact e target_dir :
  touched (infer_deploy_commands e (Some target_dir))
  = match snd (analyze_outcome e target_dir) with
    | Some (Some _) => [joinpath e (resolve e target_dir) "deploy_commands.json"]
    | _ => []
    end.
Proof.
  unfold infer_deploy_commands, analyze_outcome.
  destruct (path_exists e (resolve e target_dir)) as [[|]|];
    [rewrite bind_try_some; simpl negb; cbv iota|reflexivity|reflexivity].
  destruct (glob e (resolve e target_dir) deploy_glob) as [|s ss]; [reflexivity|].
  rewrite !touched_text_seq by apply text_only_print.
  rewrite touched_bind, touched_analyze_and_report.
  destruct (analyze_and_report_run e (sorted e (s :: ss)) []) as [_ ->].
  destruct (analyze_all e (sorted e (s :: ss))) as [results|]; [|reflexivity].
  cbn [app option_map].
  rewrite !touched_text_seq
    by first [apply text_only_print | apply text_only_type_statistics
             | apply text_only_for_each; apply text_only_summary_line].
  unfold dump_json.
  destruct (writable e (joinpath e (resolve e target_dir) "deploy_commands.json"));
    reflexivity.
Qed.

(** X19.  A run of [infer_deploy_commands] that analyses every script and
    can write its file returns the pair of the results and of the entries,
    the entries being the array it wrote and printed, and has written
    [deploy_commands.json] in the target directory and nothing else. *)
Theorem analyze_returns_results_and_entries (e : Env) (target_dir : string)
  (results : list AnalysisResult) :
  path_exists e (resolve e target_dir) = Some true ->
  glob e (resolve e target_dir) deploy_glob <> [] ->
  analyze_all e (sorted e (glob e (resolve e target_dir) deploy_glob)) = Some results ->
  writable e (joinpath e (resolve e target_dir) "deploy_commands.json") = true ->
  returned (infer_deploy_commands e (Some target_dir))
  = Some (Some (results, deploy_commands_json results))
  /\ payloads (infer_deploy_commands e (Some target_dir))
     = [entries_json (deploy_commands_json results);
        entries_json (deploy_commands_json results)]
  /\ touched (infer_deploy_commands e (Some target_dir))
     = [joinpath e (resolve e target_dir) "deploy_commands.json"].
Proof.
  intros Hex Hglob Hres Hw.
  pose proof (infer_deploy_commands_run e target_dir) as Hrun.
  pose proof (touched_infer_exact e target_dir) as Ht.
  unfold analyze_outcome in Hrun, Ht. rewrite Hex in Hrun, Ht.
  simpl negb in Hrun, Ht. cbv iota in Hrun, Ht.
  destruct (glob e (resolve e target_dir) deploy_glob) as [|s ss] eqn:Hg;
    [contradiction|].
  rewrite Hres, Hw in Hrun, Ht. injection Hrun as Hp Hr.
  repeat split; assumption.
Qed.

Lemma analyze_returns_results_and_entries_witness :
  exists results,
    returned (infer_deploy_commands Fixture.srv_env (Some "/srv"))
    = Some (Some (results, deploy_commands_json results))
    /\ payloads (infer_deploy_commands Fixture.srv_env (Some "/srv"))
       = [entries_json (deploy_commands_json results);
          entries_json (deploy_commands_json results)]
    /\ touched (infer_deploy_commands Fixture.srv_env (Some "/srv"))
       = ["/srv/deploy_commands.json"].
Proof.
  eexists.
  apply (analyze_returns_results_and_entries Fixture.srv_env "/srv");
    [reflexivity | discriminate | reflexivity | reflexivity].
Defined.

Lemma for_each_print {A : Type} (f : A -> string) (l : list A) :
  for_each l (fun x => print (f x)) = (map (fun x => Print (f x)) l, Some tt).
Proof.
  induction l as [|x l IH]; [reflexivity|].
  cbn [for_each map]. rewrite IH. reflexivity.
Qed.

(** X20.  In a directory that exists and holds deploy scripts, the list
    subcommand prints the line with their number and then one line for each
    discovered script, with its name, in sorted order, and returns. *)
Theorem list_prints_each_script (e : Env) (target_dir : string) :
  path_exists e (resolve e target_dir) = Some true ->
  glob e (resolve e target_dir) deploy_glob <> [] ->
  let deploy_scripts := glob e (resolve e target_dir) deploy_glob in
  main e (ListScripts target_dir)
  = (Print ("找到 " ++ PyStr.of_nat (List.length deploy_scripts) ++ " 个部署脚本:" ++ nl)
       :: map (fun p => Print ("  - " ++ basename e p)) (sorted e deploy_scripts),
     Some tt).
Proof.
  intros Hex Hglob. cbv zeta. cbn [main]. unfold list_scripts.
  rewrite Hex, bind_try_some. simpl negb. cbv iota.
  destruct (glob e (resolve e target_dir) deploy_glob) as [|s ss] eqn:Hg;
    [contradiction|].
  rewrite (for_each_print (fun p => "  - " ++ basename e p)). reflexivity.
Qed.

Lemma list_prints_each_script_witness :
  main Fixture.srv_env (ListScripts "/srv")
  = ([Print ("找到 4 个部署脚本:" ++ nl);
      Print "  - deploy_server_api.sh"; Print "  - deploy_server_bad.sh";
      Print "  - deploy_server_old.sh"; Print "  - deploy_server_web.sh"],
     Some tt).
Proof.
  apply (list_prints_each_script Fixture.srv_env "/srv");
    [reflexivity | discriminate].
Defined.

(** ** The warning of the report *)

Lemma effects_quiet_seq {B : Type} (m1 : M unit) (m2 : M B) :
  quiet m1 -> effects (m1 ;;; m2) = (effects m1 ++ effects m2)%list.
Proof. intros [_ R]. rewrite bind_effects, R. reflexivity. Qed.

Lemma print_numbered_lines cmds : forall i ef,
  In ef (effects (print_numbered i cmds)) ->
  exists j c, ef = Print ("  " ++ PyStr.of_nat j ++ ". " ++ c).
Proof.
  induction cmds as [|c cmds IH]; intros i ef; cbn [print_numbered].
  - intros [].
  - rewrite effects_quiet_seq by apply quiet_print.
    intros H. apply in_app_or in H. destruct H as [[<-|[]]|H].
    + exists i, c. reflexivity.
    + eapply IH; exact H.
Qed.

Lemma numbered_line_not_warning j c :
  "  " ++ PyStr.of_nat j ++ ". " ++ c <> dev_warning.
Proof.
  unfold PyStr.of_nat, dev_warning.
  destruct (Nat.to_uint j); simpl; discriminate.
Qed.

(** X21.  The report of a result holds the warning of a development server
    exactly when the result has a recommended command, its current command
    contains [dev] in any letter case, and its project is static. *)
Theorem dev_warning_condition (r : AnalysisResult) :
  In (Print dev_warning) (effects (report_result r))
  <-> exists rc cc,
        recommended_command r = Some rc /\ PyStr.truthy rc = true
        /\ current_command r = Some cc
        /\ PyStr.truthy cc = true
        /\ PyStr.contains "dev" (PyStr.lower cc) = true
        /\ is_static r = true.
Proof.
  unfold report_result.
  rewrite effects_quiet_seq by apply quiet_print.
  rewrite effects_quiet_seq by apply quiet_print.
  rewrite effects_quiet_seq by (destruct (working_dir r); quiet_steps).
  rewrite effects_quiet_seq by (destruct (project_type r); quiet_steps).
  rewrite effects_quiet_seq
    by (destruct (commands r); quiet_steps; apply quiet_print_numbered).
  rewrite effects_quiet_seq by (destruct (current_command r); quiet_steps).
  rewrite !in_app_iff.
  assert (N1 : ~ In (Print dev_warning) (effects (print (nl ++ "脚本: " ++ script r))))
    by (intros [H|[]]; discriminate H).
  assert (N2 : ~ In (Print dev_warning) (effects (print (rule80 "-"))))
    by (intros [H|[]]; discriminate H).
  assert (N3 : ~ In (Print dev_warning)
                 (effects match working_dir r with
                          | Some wd => when (PyStr.truthy wd) (print ("工作目录: " ++ wd))
                          | None => ret tt
                          end)).
  { destruct (working_dir r) as [wd|]; [|intros []].
    destruct (PyStr.truthy wd); [|intros []]. intros [H|[]]; discriminate H. }
  assert (N4 : ~ In (Print dev_warning)
                 (effects match project_type r with
                          | Some pt =>
                              print ("项目类型: " ++ description pt) ;;;
                              print ("  类别: " ++ category pt)
                          | None => ret tt
                          end)).
  { destruct (project_type r) as [pt|]; [|intros []].
    intros [H|[H|[]]]; discriminate H. }
  assert (N5 : ~ In (Print dev_warning)
                 (effects match commands r with
                          | [] => ret tt
                          | _ :: _ =>
                              print (nl ++ "当前脚本中的命令:") ;;;
                              print_numbered 1 (commands r)
                          end)).
  { destruct (commands r) as [|c cs]; [intros []|].
    rewrite effects_quiet_seq by apply quiet_print.
    intros H. apply in_app_or in H. destruct H as [[H|[]]|H]; [discriminate H|].
    apply print_numbered_lines in H. destruct H as [j [c' H]].
    apply (numbered_line_not_warning j c'). congruence. }
  assert (N6 : ~ In (Print dev_warning)
                 (effects match current_command r with
                          | Some cc =>
                              when (PyStr.truthy cc)
                                (print (nl ++ "当前使用的命令: " ++ cc))
                          | None => ret tt
                          end)).
  { destruct (current_command r) as [cc|]; [|intros []].
    destruct (PyStr.truthy cc); [|intros []]. intros [H|[]]; discriminate H. }
  split.
  - intros [H|[H|[H|[H|[H|[H|H]]]]]]; try contradiction.
    + destruct (commands r); contradiction.
    + destruct (recommended_command r) as [rc|];
        [|destruct H as [H|[]]; discriminate H].
      destruct (PyStr.truthy rc) eqn:Hrc; [|destruct H as [H|[]]; discriminate H].
      rewrite effects_quiet_seq in H by apply quiet_print.
      apply in_app_or in H. destruct H as [[H|[]]|H]; [discriminate H|].
      destruct (current_command r) as [cc|]; [|destruct H].
      destruct (PyStr.truthy cc && PyStr.contains "dev" (PyStr.lower cc) && is_static r)
        eqn:Hc; [|destruct H].
      apply andb_true_iff in Hc. destruct Hc as [Hc Hs].
      apply andb_true_iff in Hc. destruct Hc as [Hcc Hdev].
      exists rc, cc. repeat split; assumption.
  - intros [rc [cc [Hrc [Htr [Hcc [Htc [Hdev Hs]]]]]]].
    do 6 right. rewrite Hrc, Htr, Hcc.
    rewrite effects_quiet_seq by apply quiet_print.
    apply in_or_app. right. rewrite Htc, Hdev, Hs. left. reflexivity.
Qed.

(** ** When there is no recommendation, and when a run fails *)

Lemma current_of_none cmds : current_of cmds = None <-> cmds = [].
Proof.
  destruct cmds as [|c cs] using rev_ind; [split; reflexivity|].
  unfold current_of. rewrite last_item_snoc.
  destruct (cs ++ [c])%list eqn:E; [destruct cs; discriminate E|].
  split; discriminate.
Qed.

(** X22.  A result of the analysis has no recommended command exactly when
    its project was not looked at (no working directory, or a directory that
    does not exist), or when the project is unknown and the script holds no
    command. *)
Theorem no_recommendation_iff (e : Env) (script_path : path) (r : AnalysisResult) :
  analyze_deploy_script e script_path = Some r ->
  (recommended_command r = None
   <-> project_type r = None
       \/ (project_type r = Some unknown_type /\ commands r = [])).
Proof.
  intros Hr. apply analyze_deploy_script_content in Hr.
  destruct Hr as [content [_ Hr]].
  rewrite analyze_content_closed in Hr.
  set (r0 := parsed_result (basename e script_path) (script_lines content)) in *.
  destruct (working_dir r0) as [wd|] eqn:Hwd.
  - assert (Ht : PyStr.truthy wd = true)
      by (eapply last_match_truthy; [|exact Hwd]; discriminate).
    destruct (path_exists e (joinpath e (parent e script_path) wd)) as [[|]|] eqn:Hex.
    + destruct (detect_project_type e (joinpath e (parent e script_path) wd))
        as [pt|] eqn:Hpt.
      * rewrite (recommend_exists _ _ _ _ _ Hwd Ht Hex Hpt) in Hr. injection Hr as <-.
        cbn [project_type recommended_command commands set_recommended_command
             set_project_type].
        destruct (detect_shape _ _ _ Hpt) as [[_ [_ Hb]]|Hu].
        -- rewrite Hb. simpl. split; [discriminate|].
           intros [H|[H _]]; [discriminate H|].
           injection H as H. rewrite H in Hb. discriminate Hb.
        -- rewrite Hu. simpl. unfold current_of at 1.
           fold (current_of (filter is_command (script_lines content))).
           rewrite current_of_none. split.
           ++ intros H. right. split; [reflexivity|exact H].
           ++ intros [H|[_ H]]; [discriminate H|exact H].
      * unfold recommend in Hr. rewrite Hwd, Ht, Hex in Hr. simpl in Hr.
        rewrite Hpt in Hr. discriminate Hr.
    + rewrite (recommend_missing _ _ _ _ Hwd Hex) in Hr. injection Hr as <-.
      simpl. tauto.
    + unfold recommend in Hr. rewrite Hwd, Ht, Hex in Hr. discriminate Hr.
  - rewrite (recommend_unset _ _ _ Hwd) in Hr. injection Hr as <-. simpl. tauto.
Qed.

Lemma no_recommendation_iff_witness :
  let r := {| script := "deploy_server_old.sh";
              working_dir := Some "gone";
              commands := ["npm start"];
              current_command := Some "npm start";
              project_type := None;
              recommended_command := None |} in
  recommended_command r = None
  <-> project_type r = None
      \/ (project_type r = Some unknown_type /\ commands r = []).
Proof.
  exact (no_recommendation_iff Fixture.srv_env "/srv/deploy_server_old.sh" _ eq_refl).
Defined.
